(** * UDS data frames: header codec, key derivation and CCMP encryption

    A shallow embedding of [src/core/hle/service/nwm/uds_data.cpp] (namespace
    [Service::NWM]) and of the parts of Crypto++ the file calls, followed by
    the properties of the frame codec and of the encryption pipeline.

    Conventions.  A [u8], [u16], [u32] or [size_t] is a [Z]; every
    conversion to a narrower type is written out as a reduction modulo a
    power of two.  A [std::vector<u8>] or [std::array<u8, N>] is a [list Z].
    A function that can end otherwise than by returning (failed assertion,
    read past the end of a buffer, exception) returns an [outcome]. *)

From Stdlib Require Import String ZArith List Lia Bool.
Import ListNotations.
Open Scope Z_scope.

(** ** Fixed-width integers and byte sequences *)

Definition is_u8 (x : Z) : Prop := 0 <= x < 256.
Definition is_u16 (x : Z) : Prop := 0 <= x < 65536.
Definition is_u64 (x : Z) : Prop := 0 <= x < 2 ^ 64.

(** [static_cast<u16>] and the implicit conversion to a 16-bit field. *)
Definition to_u16 (x : Z) : Z := x mod 65536.

(** Arithmetic on [std::size_t] (64 bits on the supported targets). *)
Definition size_t_sub (a b : Z) : Z := (a - b) mod 2 ^ 64.

Definition size {A : Type} (v : list A) : Z := Z.of_nat (length v).

(** Big-endian encoding of [v] on [n] bytes, and its inverse. *)
Fixpoint be_bytes (n : nat) (v : Z) : list Z :=
  match n with
  | O => []
  | S m => (v / 256 ^ Z.of_nat m) mod 256 :: be_bytes m v
  end.

Definition be_value (l : list Z) : Z :=
  fold_left (fun acc b => acc * 256 + b) l 0.

(** Little-endian encoding of [v] on [n] bytes. *)
Fixpoint le_bytes (n : nat) (v : Z) : list Z :=
  match n with
  | O => []
  | S m => v mod 256 :: le_bytes m (v / 256)
  end.

(** Bytewise exclusive or of the first [n] bytes of two buffers. *)
Definition xor_bytes (n : nat) (a b : list Z) : list Z :=
  map (fun i => Z.lxor (nth i a 0) (nth i b 0)) (seq 0 n).

Definition bytes_eqb (a b : list Z) : bool :=
  if list_eq_dec Z.eq_dec a b then true else false.

(** ** The block cipher: [CryptoPP::AES] with a 128-bit key (FIPS 197) *)

Module AES.

Definition BLOCKSIZE : nat := 16.

Definition Sbox : list Z :=
  [ 99; 124; 119; 123; 242; 107; 111; 197; 48; 1; 103; 43; 254; 215; 171; 118;
   202; 130; 201; 125; 250; 89; 71; 240; 173; 212; 162; 175; 156; 164; 114; 192;
   183; 253; 147; 38; 54; 63; 247; 204; 52; 165; 229; 241; 113; 216; 49; 21;
   4; 199; 35; 195; 24; 150; 5; 154; 7; 18; 128; 226; 235; 39; 178; 117;
   9; 131; 44; 26; 27; 110; 90; 160; 82; 59; 214; 179; 41; 227; 47; 132;
   83; 209; 0; 237; 32; 252; 177; 91; 106; 203; 190; 57; 74; 76; 88; 207;
   208; 239; 170; 251; 67; 77; 51; 133; 69; 249; 2; 127; 80; 60; 159; 168;
   81; 163; 64; 143; 146; 157; 56; 245; 188; 182; 218; 33; 16; 255; 243; 210;
   205; 12; 19; 236; 95; 151; 68; 23; 196; 167; 126; 61; 100; 93; 25; 115;
   96; 129; 79; 220; 34; 42; 144; 136; 70; 238; 184; 20; 222; 94; 11; 219;
   224; 50; 58; 10; 73; 6; 36; 92; 194; 211; 172; 98; 145; 149; 228; 121;
   231; 200; 55; 109; 141; 213; 78; 169; 108; 86; 244; 234; 101; 122; 174; 8;
   186; 120; 37; 46; 28; 166; 180; 198; 232; 221; 116; 31; 75; 189; 139; 138;
   112; 62; 181; 102; 72; 3; 246; 14; 97; 53; 87; 185; 134; 193; 29; 158;
   225; 248; 152; 17; 105; 217; 142; 148; 155; 30; 135; 233; 206; 85; 40; 223;
   140; 161; 137; 13; 191; 230; 66; 104; 65; 153; 45; 15; 176; 84; 187; 22 ].

Definition SubByte (b : Z) : Z := nth (Z.to_nat b) Sbox 0.

(** Multiplication by [x] in GF(2^8) modulo [x^8 + x^4 + x^3 + x + 1]. *)
Definition xtime (b : Z) : Z :=
  Z.lxor (Z.land (Z.shiftl b 1) 255) (if Z.testbit b 7 then 27 else 0).

Definition SubBytes (st : list Z) : list Z := map SubByte st.

(** The state is held column by column: byte [r + 4 * c] is row [r] of
    column [c]. *)
Definition ShiftRows (st : list Z) : list Z :=
  map (fun i => nth i st 0)
      [0; 5; 10; 15; 4; 9; 14; 3; 8; 13; 2; 7; 12; 1; 6; 11]%nat.

Definition MixColumn (a0 a1 a2 a3 : Z) : list Z :=
  [ Z.lxor (Z.lxor (xtime a0) (Z.lxor (xtime a1) a1)) (Z.lxor a2 a3);
    Z.lxor (Z.lxor a0 (xtime a1)) (Z.lxor (Z.lxor (xtime a2) a2) a3);
    Z.lxor (Z.lxor a0 a1) (Z.lxor (xtime a2) (Z.lxor (xtime a3) a3));
    Z.lxor (Z.lxor (Z.lxor (xtime a0) a0) a1) (Z.lxor a2 (xtime a3)) ].

Definition MixColumns (st : list Z) : list Z :=
  flat_map (fun c => MixColumn (nth (4 * c) st 0) (nth (4 * c + 1) st 0)
                               (nth (4 * c + 2) st 0) (nth (4 * c + 3) st 0))
           [0; 1; 2; 3]%nat.

Definition AddRoundKey (st rk : list Z) : list Z := xor_bytes 16 st rk.

(** One step of the key schedule: the next four words of the expanded
    key. *)
Definition NextRoundKey (rk : list Z) (rcon : Z) : list Z :=
  let k i := nth i rk 0 in
  let w0 := [ Z.lxor (k 0%nat) (Z.lxor (SubByte (k 13%nat)) rcon);
              Z.lxor (k 1%nat) (SubByte (k 14%nat));
              Z.lxor (k 2%nat) (SubByte (k 15%nat));
              Z.lxor (k 3%nat) (SubByte (k 12%nat)) ] in
  let w1 := xor_bytes 4 w0 (firstn 4 (skipn 4 rk)) in
  let w2 := xor_bytes 4 w1 (firstn 4 (skipn 8 rk)) in
  let w3 := xor_bytes 4 w2 (firstn 4 (skipn 12 rk)) in
  w0 ++ w1 ++ w2 ++ w3.

Definition Rcon : list Z := [1; 2; 4; 8; 16; 32; 64; 128; 27; 54].

Fixpoint Rounds (rcons : list Z) (st rk : list Z) : list Z :=
  match rcons with
  | [] => st
  | rc :: rest =>
      let rk' := NextRoundKey rk rc in
      let sub := ShiftRows (SubBytes st) in
      let mixed := match rest with [] => sub | _ :: _ => MixColumns sub end in
      Rounds rest (AddRoundKey mixed rk') rk'
  end.

(** [AES::Encryption::ProcessBlock]: the cipher applied to one block. *)
Definition ProcessBlock (key block : list Z) : list Z :=
  Rounds Rcon (AddRoundKey block key) key.

End AES.

(** ** The digest: [CryptoPP::Weak::MD5] (RFC 1321) *)

Module MD5.

Definition DIGESTSIZE : nat := 16.

Definition K : list Z :=
  [ 3614090360; 3905402710; 606105819; 3250441966;
    4118548399; 1200080426; 2821735955; 4249261313;
    1770035416; 2336552879; 4294925233; 2304563134;
    1804603682; 4254626195; 2792965006; 1236535329;
    4129170786; 3225465664; 643717713; 3921069994;
    3593408605; 38016083; 3634488961; 3889429448;
    568446438; 3275163606; 4107603335; 1163531501;
    2850285829; 4243563512; 1735328473; 2368359562;
    4294588738; 2272392833; 1839030562; 4259657740;
    2763975236; 1272893353; 4139469664; 3200236656;
    681279174; 3936430074; 3572445317; 76029189;
    3654602809; 3873151461; 530742520; 3299628645;
    4096336452; 1126891415; 2878612391; 4237533241;
    1700485571; 2399980690; 4293915773; 2240044497;
    1873313359; 4264355552; 2734768916; 1309151649;
    4149444226; 3174756917; 718787259; 3951481745 ].

Definition Shifts : list Z :=
  [ 7; 12; 17; 22; 7; 12; 17; 22; 7; 12; 17; 22; 7; 12; 17; 22;
    5; 9; 14; 20; 5; 9; 14; 20; 5; 9; 14; 20; 5; 9; 14; 20;
    4; 11; 16; 23; 4; 11; 16; 23; 4; 11; 16; 23; 4; 11; 16; 23;
    6; 10; 15; 21; 6; 10; 15; 21; 6; 10; 15; 21; 6; 10; 15; 21 ].

Definition mask32 : Z := 4294967295.
Definition add32 (a b : Z) : Z := (a + b) mod 2 ^ 32.
Definition not32 (a : Z) : Z := Z.lxor a mask32.
Definition rotl32 (x c : Z) : Z :=
  Z.lor (Z.land (Z.shiftl x c) mask32) (Z.shiftr x (32 - c)).

Definition Pad (msg : list Z) : list Z :=
  let n := size msg in
  msg ++ [128] ++ repeat 0 (Z.to_nat ((55 - n) mod 64)) ++ le_bytes 8 (8 * n).

(** The 32-bit little-endian word number [j] of block number [blk]. *)
Definition Word (padded : list Z) (blk j : nat) : Z :=
  let b i := nth (64 * blk + 4 * j + i) padded 0 in
  b 0%nat + 256 * b 1%nat + 65536 * b 2%nat + 16777216 * b 3%nat.

Definition State : Type := (Z * Z * Z * Z)%type.

Definition Step (padded : list Z) (blk : nat) (s : State) (i : nat) : State :=
  let '(a, b, c, d) := s in
  let '(f, g) :=
    if (i <? 16)%nat then (Z.lor (Z.land b c) (Z.land (not32 b) d), i)
    else if (i <? 32)%nat then
      (Z.lor (Z.land d b) (Z.land (not32 d) c), ((5 * i + 1) mod 16)%nat)
    else if (i <? 48)%nat then
      (Z.lxor b (Z.lxor c d), ((3 * i + 5) mod 16)%nat)
    else (Z.lxor c (Z.lor b (not32 d)), ((7 * i) mod 16)%nat) in
  let f' := add32 (add32 f a) (add32 (nth i K 0) (Word padded blk g)) in
  (d, add32 b (rotl32 f' (nth i Shifts 0)), b, c).

Definition Transform (padded : list Z) (s : State) (blk : nat) : State :=
  let '(a0, b0, c0, d0) := s in
  let '(a, b, c, d) := fold_left (Step padded blk) (seq 0 64) s in
  (add32 a0 a, add32 b0 b, add32 c0 c, add32 d0 d).

(** [MD5().CalculateDigest(digest, input, length)]. *)
Definition CalculateDigest (msg : list Z) : list Z :=
  let padded := Pad msg in
  let '(a, b, c, d) :=
    fold_left (Transform padded) (seq 0 (length padded / 64))
              (1732584193, 4023233417, 2562383102, 271733878) in
  le_bytes 4 a ++ le_bytes 4 b ++ le_bytes 4 c ++ le_bytes 4 d.

End MD5.

(** ** The modes of operation: [CryptoPP::CTR_Mode<AES>] and
       [CryptoPP::CCM<AES, 8>] (RFC 3610) *)

Module CryptoPP.

(** The classes derived from [CryptoPP::Exception] that the calls below
    can throw. *)
Inductive Exception : Type :=
| InvalidKeyLength
| InvalidArgument
| HashVerificationFailed.

(** A call either throws or returns. *)
Definition result (A : Type) : Type := (Exception + A)%type.

Definition bind {A B : Type} (r : result A) (k : A -> result B) : result B :=
  match r with
  | inl e => inl e
  | inr a => k a
  end.

(** *** Counter mode *)

(** The counter is the whole block, read as a big-endian number. *)
Definition CounterBlock (iv : list Z) (i : Z) : list Z :=
  be_bytes 16 ((be_value iv + i) mod 2 ^ 128).

(** Byte [j] of the key stream that starts at block number [start]. *)
Definition KeystreamByte (key iv : list Z) (start : Z) (j : nat) : Z :=
  nth (j mod 16)
      (AES.ProcessBlock key (CounterBlock iv (start + Z.of_nat (j / 16)))) 0.

(** [ProcessData(out, in, length)] on a counter-mode object positioned at
    block [start]. *)
Definition CTR_ProcessData (key iv : list Z) (start : Z) (data : list Z)
  : list Z :=
  map (fun jb => Z.lxor (snd jb) (KeystreamByte key iv start (fst jb)))
      (combine (seq 0 (length data)) data).

(** *** CCM with a tag of [DigestSize] bytes *)

Definition DigestSize : Z := 8.

(** The state of a [CCM<AES, 8>::Encryption] or [::Decryption] object. *)
Record CCM : Type := {
  key : list Z;
  nonce : list Z;
  L : Z;                (* width of the length field: 15 - nonce length *)
  aad_length : Z;
  message_length : Z
}.

(** [SetKeyWithIV(key, keylen, iv, ivlen)].  Only 128-bit keys are
    modelled: the key of every caller is a [std::array<u8, 16>]. *)
Definition SetKeyWithIV (k : list Z) (keylen : Z) (iv : list Z) (ivlen : Z)
  : result CCM :=
  if negb (keylen =? 16) then inl InvalidKeyLength
  else if (7 <=? ivlen) && (ivlen <=? 13) then
    inr {| key := k; nonce := iv; L := 15 - ivlen;
           aad_length := 0; message_length := 0 |}
  else inl InvalidArgument.

Definition MaxMessageLength (d : CCM) : Z :=
  if L d <? 8 then 2 ^ (8 * L d) - 1 else 2 ^ 64 - 1.

Definition MaxHeaderLength : Z := 2 ^ 64 - 1.

(** [SpecifyDataLengths(headerLength, messageLength, 0)]. *)
Definition SpecifyDataLengths (d : CCM) (headerLength messageLength : Z)
  : result CCM :=
  if MaxHeaderLength <? headerLength then inl InvalidArgument
  else if MaxMessageLength d <? messageLength then inl InvalidArgument
  else inr {| key := key d; nonce := nonce d; L := L d;
              aad_length := headerLength; message_length := messageLength |}.

(** The first block of the CBC-MAC: flags, nonce, message length. *)
Definition FormatB0 (d : CCM) : list Z :=
  [64 * (if 0 <? aad_length d then 1 else 0)
   + 8 * ((DigestSize - 2) / 2) + (L d - 1)]
  ++ nonce d ++ be_bytes (Z.to_nat (L d)) (message_length d).

(** The authenticated data, preceded by the encoding of its length. *)
Definition EncodeAAD (aad : list Z) : list Z :=
  let n := size aad in
  if n =? 0 then []
  else if n <? 65280 then be_bytes 2 n ++ aad
  else if n <? 2 ^ 32 then [255; 254] ++ be_bytes 4 n ++ aad
  else [255; 255] ++ be_bytes 8 n ++ aad.

(** The 16-byte blocks of a buffer, the last one padded with zeros. *)
Definition Blocks (data : list Z) : list (list Z) :=
  map (fun i => map (fun j => nth (16 * i + j) data 0) (seq 0 16))
      (seq 0 ((length data + 15) / 16)).

Definition CBC_MAC (d : CCM) (aad msg : list Z) : list Z :=
  fold_left (fun x b => AES.ProcessBlock (key d) (xor_bytes 16 x b))
            (Blocks (EncodeAAD aad) ++ Blocks msg)
            (AES.ProcessBlock (key d) (FormatB0 d)).

(** The initial counter block: flags, nonce, zero counter. *)
Definition A0 (d : CCM) : list Z :=
  [L d - 1] ++ nonce d ++ repeat 0 (Z.to_nat (L d)).

(** The tag: the CBC-MAC encrypted with key-stream block number 0. *)
Definition Tag (d : CCM) (aad msg : list Z) : list Z :=
  xor_bytes (Z.to_nat DigestSize) (CBC_MAC d aad msg)
            (AES.ProcessBlock (key d) (CounterBlock (A0 d) 0)).

(** The data is encrypted with the key stream from block number 1 on. *)
Definition Crypt (d : CCM) (data : list Z) : list Z :=
  CTR_ProcessData (key d) (A0 d) 1 data.

Definition LengthsMatch (d : CCM) (aad msg : list Z) : bool :=
  (size aad =? aad_length d) && (size msg =? message_length d).

(** [AuthenticatedEncryptionFilter]: [aad] on the AAD channel, [msg] on
    the default channel, both ended; what the default channel then holds. *)
Definition AuthenticatedEncryptionFilter (d : CCM) (aad msg : list Z)
  : result (list Z) :=
  if LengthsMatch d aad msg then inr (Crypt d msg ++ Tag d aad msg)
  else inl InvalidArgument.

(** [AuthenticatedDecryptionFilter] with [MAC_AT_END | THROW_EXCEPTION]:
    [aad] on the AAD channel, then [cipher] and [mac] on the default
    channel, both ended; what the default channel then holds. *)
Definition AuthenticatedDecryptionFilter (d : CCM) (aad cipher mac : list Z)
  : result (list Z) :=
  if LengthsMatch d aad cipher then
    let plain := Crypt d cipher in
    if bytes_eqb (Tag d aad plain) mac then inr plain
    else inl HashVerificationFailed
  else inl InvalidArgument.

End CryptoPP.

(** ** How a call can end *)

(** [TruncatedFrame] and [InvalidArgument] are the failure values that the
    specification of the codec names; no function of [uds_data.cpp]
    produces them.  [CryptoPP_Exception] is an exception thrown by
    Crypto++. *)
Inductive failure : Type :=
| TruncatedFrame
| InvalidArgument
| CryptoPP_Exception (e : CryptoPP.Exception).

Inductive outcome (A : Type) : Type :=
| Ret (a : A)          (* the call returns [a] *)
| Fail (f : failure)   (* the call hands a failure to its caller *)
| Abort                (* a failed assertion ends the process *)
| Undefined.           (* a read outside of a buffer *)

Arguments Ret {A} a.
Arguments Fail {A} f.
Arguments Abort {A}.
Arguments Undefined {A}.

Definition bind {A B : Type} (c : outcome A) (k : A -> outcome B)
  : outcome B :=
  match c with
  | Ret a => k a
  | Fail f => Fail f
  | Abort => Abort
  | Undefined => Undefined
  end.

Notation "x <- c ;; k" := (bind c (fun x => k))
  (at level 61, c at next level, right associativity).

(** A Crypto++ call inside a function of this file. *)
Definition lift {A : Type} (r : CryptoPP.result A) : outcome A :=
  match r with
  | inl e => Fail (CryptoPP_Exception e)
  | inr a => Ret a
  end.

(** [try { body } catch (CryptoPP::Exception&) { handler }]. *)
Definition try_catch_CryptoPP {A : Type} (body handler : outcome A)
  : outcome A :=
  match body with
  | Fail (CryptoPP_Exception _) => handler
  | other => other
  end.

(** Modelled from the spec: the macro [ASSERT_MSG] is declared in
    [common/assert.h], which is not among the sources; a failed assertion is
    fatal. *)
Definition ASSERT_MSG (condition : bool) : outcome unit :=
  if condition then Ret tt else Abort.

(** The logging collaborator: the entries a call has written. *)
Inductive LogEntry : Type :=
| LOG_ERROR (log_class message : string).

(** [n] bytes read at [buffer.data() + offset]. *)
Definition memcpy_from (buffer : list Z) (offset n : Z) : outcome (list Z) :=
  if (0 <=? offset) && (0 <=? n) && (offset + n <=? size buffer)
  then Ret (firstn (Z.to_nat n) (skipn (Z.to_nat offset) buffer))
  else Undefined.

(** [std::copy(src.begin(), src.end(), dst.begin())]. *)
Definition std_copy {A : Type} (src dst : list A) : list A :=
  src ++ skipn (length src) dst.

(** ** The structures of [uds_data.h] and [nwm_uds.h]

    The headers that declare the structures are not among the sources.  A
    record below has the members that [uds_data.cpp] reads or writes; the
    object representation of a structure (its size, the order, width and
    byte order of its members, its padding and the members with a fixed
    value) is a parameter, an instance of [ObjRep]. *)

Class ObjRep {T : Type} (wf : T -> Prop) : Type := {
  sizeof : Z;
  to_bytes : T -> list Z;      (* [memcpy(buffer, &x, sizeof(x))] *)
  of_bytes : list Z -> T;      (* [memcpy(&x, buffer, sizeof(x))] *)
  to_bytes_size : forall x, size (to_bytes x) = sizeof;
  of_to_bytes : forall x, wf x -> of_bytes (to_bytes x) = x
}.

Definition EtherType : Type := Z.

(** The two enumerators of [EtherType] that the file names. *)
Class EtherType_enum : Type := {
  SecureData : EtherType;
  EAPoL : EtherType
}.

Record LLCHeader : Type := {
  protocol : EtherType
}.

Definition LLCHeader_wf (h : LLCHeader) : Prop := is_u16 (protocol h).

Record SecureDataHeader : Type := {
  protocol_size : Z;
  securedata_size : Z;
  is_management : Z;
  data_channel : Z;
  sequence_number : Z;
  dest_node_id : Z;
  src_node_id : Z
}.

Definition SecureDataHeader_wf (h : SecureDataHeader) : Prop :=
  is_u16 (protocol_size h) /\ is_u16 (securedata_size h) /\
  is_u8 (is_management h) /\ is_u8 (data_channel h) /\
  is_u16 (sequence_number h) /\ is_u16 (dest_node_id h) /\
  is_u16 (src_node_id h).

(** The number of characters of a user name. *)
Class UsernameBuffer : Type := {
  username_size : nat
}.

Module NodeInfo.
Record t : Type := {
  friend_code_seed : Z;
  username : list Z;
  network_node_id : Z
}.
End NodeInfo.

Module EAPoLNodeInfo.
Record t : Type := {
  friend_code_seed : Z;
  username : list Z;
  network_node_id : Z
}.
End EAPoLNodeInfo.

Module EAPoLStartPacket.
Record t : Type := {
  association_id : Z;
  node : EAPoLNodeInfo.t
}.
End EAPoLStartPacket.

Definition NodeInfo_wf {U : UsernameBuffer} (n : NodeInfo.t) : Prop :=
  is_u64 (NodeInfo.friend_code_seed n) /\
  length (NodeInfo.username n) = username_size /\
  Forall is_u16 (NodeInfo.username n) /\
  is_u16 (NodeInfo.network_node_id n).

Definition EAPoLNodeInfo_wf {U : UsernameBuffer} (n : EAPoLNodeInfo.t)
  : Prop :=
  is_u64 (EAPoLNodeInfo.friend_code_seed n) /\
  length (EAPoLNodeInfo.username n) = username_size /\
  Forall is_u16 (EAPoLNodeInfo.username n) /\
  is_u16 (EAPoLNodeInfo.network_node_id n).

Definition EAPoLStartPacket_wf {U : UsernameBuffer} (p : EAPoLStartPacket.t)
  : Prop :=
  is_u16 (EAPoLStartPacket.association_id p) /\
  EAPoLNodeInfo_wf (EAPoLStartPacket.node p).

Module NetworkInfo.
Record t : Type := {
  host_mac_address : list Z;
  wlan_comm_id : Z;
  id : Z;
  network_id : Z
}.
End NetworkInfo.

Module DataFrameCryptoCTR.
Record t : Type := {
  host_mac : list Z;
  wlan_comm_id : Z;
  id : Z;
  network_id : Z
}.
End DataFrameCryptoCTR.

(** The bytes that hold each integer member of [DataFrameCryptoCTR]. *)
Class DataFrameCryptoCTR_members : Type := {
  wlan_comm_id_bytes : Z -> list Z;
  id_bytes : Z -> list Z;
  network_id_bytes : Z -> list Z
}.

(** Modelled from the spec: the declaration of [DataFrameCryptoCTR] is in
    [uds_data.h], which is not among the sources; its bytes are host MAC,
    wireless community id, instantiation id and network id, in that order
    and with no padding between them. *)
Definition DataFrameCryptoCTR_bytes {M : DataFrameCryptoCTR_members}
  (data : DataFrameCryptoCTR.t) : list Z :=
  DataFrameCryptoCTR.host_mac data
  ++ wlan_comm_id_bytes (DataFrameCryptoCTR.wlan_comm_id data)
  ++ id_bytes (DataFrameCryptoCTR.id data)
  ++ network_id_bytes (DataFrameCryptoCTR.network_id data).

(** The key storage of [core/hw/aes/key.h]: the normal key of a slot. *)
Class KeyStorage : Type := {
  GetNormalKey : Z -> list Z
}.

(** [HW::AES::KeySlotID::UDSDataKey]: key slot 0x2D. *)
Definition UDSDataKey : Z := 45.

Definition sizeof_LLCHeader {R : ObjRep LLCHeader_wf} : Z := sizeof.
Definition sizeof_SecureDataHeader {R : ObjRep SecureDataHeader_wf} : Z :=
  sizeof.
Definition sizeof_EAPoLStartPacket {U : UsernameBuffer}
  {R : ObjRep EAPoLStartPacket_wf} : Z := sizeof.

(** ** The functions of [uds_data.cpp] *)

Section UdsData.

Context {EtherTypes : EtherType_enum}.
Context {LLCHeader_rep : ObjRep LLCHeader_wf}.
Context {SecureDataHeader_rep : ObjRep SecureDataHeader_wf}.
Context {Usernames : UsernameBuffer}.
Context {EAPoLStartPacket_rep : ObjRep EAPoLStartPacket_wf}.
Context {CTR_members : DataFrameCryptoCTR_members}.
Context {Keys : KeyStorage}.

Definition GenerateLLCHeader (protocol : EtherType) : list Z :=
  let header := {| protocol := protocol |} in
  to_bytes header.

Definition GenerateSecureDataHeader
  (data_size channel dest_node_id src_node_id sequence_number : Z) : list Z :=
  let header :=
    {| protocol_size := to_u16 (data_size + sizeof_SecureDataHeader);
       securedata_size := to_u16 (data_size + sizeof_SecureDataHeader - 4);
       is_management := 0;
       data_channel := channel;
       sequence_number := sequence_number;
       dest_node_id := dest_node_id;
       src_node_id := src_node_id |} in
  to_bytes header.

Definition GetDataCryptoCTR (network_info : NetworkInfo.t) : list Z :=
  let data :=
    {| DataFrameCryptoCTR.host_mac := NetworkInfo.host_mac_address network_info;
       DataFrameCryptoCTR.wlan_comm_id := NetworkInfo.wlan_comm_id network_info;
       DataFrameCryptoCTR.id := NetworkInfo.id network_info;
       DataFrameCryptoCTR.network_id := NetworkInfo.network_id network_info |} in
  MD5.CalculateDigest (DataFrameCryptoCTR_bytes data).

Definition GenerateDataCCMPKey (passphrase : list Z)
  (network_info : NetworkInfo.t) : list Z :=
  let passphrase_hash := MD5.CalculateDigest passphrase in
  let counter := GetDataCryptoCTR network_info in
  let key := GetNormalKey UDSDataKey in
  CryptoPP.CTR_ProcessData key counter 0 passphrase_hash.

(** The structure that [GenerateCCMPAAD] declares: both integers are
    [u16_be], the addresses are [MacAddress]. *)
Record aad_struct_t : Type := {
  FC : Z;
  A1 : list Z;
  A2 : list Z;
  A3 : list Z;
  SC : Z
}.

Definition aad_struct_bytes (a : aad_struct_t) : list Z :=
  be_bytes 2 (FC a) ++ A1 a ++ A2 a ++ A3 a ++ be_bytes 2 (SC a).

Definition AADFrameControlMask : Z := 36807.  (* 0x8FC7 *)

Definition GenerateCCMPAAD (sender receiver bssid : list Z)
  (frame_control : Z) : outcome (list Z) :=
  let aad_struct :=
    {| FC := Z.land frame_control AADFrameControlMask;
       A1 := repeat 0 6; A2 := repeat 0 6; A3 := repeat 0 6;
       SC := 0 |} in
  let to_ds := negb (Z.land frame_control (Z.shiftl 1 0) =? 0) in
  let from_ds := negb (Z.land frame_control (Z.shiftl 1 1) =? 0) in
  _ <- ASSERT_MSG (negb (Bool.eqb to_ds from_ds)) ;;
  let aad_struct :=
    if from_ds then
      {| FC := FC aad_struct; A1 := receiver; A2 := bssid; A3 := sender;
         SC := SC aad_struct |}
    else aad_struct in
  let aad_struct :=
    if to_ds then
      {| FC := FC aad_struct; A1 := bssid; A2 := sender; A3 := receiver;
         SC := SC aad_struct |}
    else aad_struct in
  Ret (aad_struct_bytes aad_struct).

(** The nonce that [DecryptDataFrame] builds. *)
Definition DecryptDataFrame_nonce (sender : list Z) (sequence_number : Z)
  : list Z :=
  let packet_number :=
    [0; 0; 0; 0;
     Z.land (Z.shiftr sequence_number 8) 255;
     Z.land sequence_number 255] in
  [0] ++ sender ++ packet_number.

Definition DecryptDataFrame (encrypted_payload ccmp_key : list Z)
  (sender receiver bssid : list Z) (sequence_number frame_control : Z)
  : outcome (list Z * list LogEntry) :=
  aad <- GenerateCCMPAAD sender receiver bssid frame_control ;;
  let nonce := DecryptDataFrame_nonce sender sequence_number in
  try_catch_CryptoPP
    (d <- lift (CryptoPP.SetKeyWithIV ccmp_key (size ccmp_key)
                                      nonce (size nonce)) ;;
     d <- lift (CryptoPP.SpecifyDataLengths
                  d (size aad) (size_t_sub (size encrypted_payload) 8)) ;;
     cipher <- memcpy_from encrypted_payload 0
                           (size_t_sub (size encrypted_payload) 8) ;;
     mac <- memcpy_from encrypted_payload (size encrypted_payload - 8) 8 ;;
     pdata <- lift (CryptoPP.AuthenticatedDecryptionFilter d aad cipher mac) ;;
     Ret (pdata, []))
    (Ret ([], [LOG_ERROR "Service_NWM" "failed to decrypt"])).

(** The nonce that [EncryptDataFrame] builds. *)
Definition EncryptDataFrame_nonce (sender : list Z) (sequence_number : Z)
  : list Z :=
  let packet_number :=
    [0; 0; 0; 0;
     Z.land (Z.shiftr sequence_number 8) 255;
     Z.land sequence_number 255] in
  [0] ++ sender ++ packet_number.

Definition EncryptDataFrame (payload ccmp_key : list Z)
  (sender receiver bssid : list Z) (sequence_number frame_control : Z)
  : outcome (list Z * list LogEntry) :=
  aad <- GenerateCCMPAAD sender receiver bssid frame_control ;;
  let nonce := EncryptDataFrame_nonce sender sequence_number in
  try_catch_CryptoPP
    (d <- lift (CryptoPP.SetKeyWithIV ccmp_key (size ccmp_key)
                                      nonce (size nonce)) ;;
     d <- lift (CryptoPP.SpecifyDataLengths d (size aad) (size payload)) ;;
     cipher <- lift (CryptoPP.AuthenticatedEncryptionFilter d aad payload) ;;
     Ret (cipher, []))
    (Ret ([], [LOG_ERROR "Service_NWM" "failed to encrypt"])).

Definition GenerateDataPayload (data : list Z)
  (channel dest_node src_node sequence_number : Z) : list Z :=
  let buffer := GenerateLLCHeader SecureData in
  let securedata_header :=
    GenerateSecureDataHeader (to_u16 (size data)) channel dest_node src_node
                             sequence_number in
  let buffer := buffer ++ securedata_header in
  let buffer := buffer ++ data in
  buffer.

Definition ParseSecureDataHeader (data : list Z) : outcome SecureDataHeader :=
  bytes <- memcpy_from data sizeof_LLCHeader sizeof_SecureDataHeader ;;
  let header : SecureDataHeader := of_bytes bytes in
  Ret header.

Definition GenerateEAPoLStartFrame (association_id : Z)
  (node_info : NodeInfo.t) : list Z :=
  let eapol_start :=
    {| EAPoLStartPacket.association_id := 0;
       EAPoLStartPacket.node :=
         {| EAPoLNodeInfo.friend_code_seed := 0;
            EAPoLNodeInfo.username := repeat 0 username_size;
            EAPoLNodeInfo.network_node_id := 0 |} |} in
  let eapol_start :=
    {| EAPoLStartPacket.association_id := association_id;
       EAPoLStartPacket.node := EAPoLStartPacket.node eapol_start |} in
  let eapol_start :=
    {| EAPoLStartPacket.association_id :=
         EAPoLStartPacket.association_id eapol_start;
       EAPoLStartPacket.node :=
         {| EAPoLNodeInfo.friend_code_seed :=
              NodeInfo.friend_code_seed node_info;
            EAPoLNodeInfo.username :=
              EAPoLNodeInfo.username (EAPoLStartPacket.node eapol_start);
            EAPoLNodeInfo.network_node_id :=
              EAPoLNodeInfo.network_node_id
                (EAPoLStartPacket.node eapol_start) |} |} in
  let eapol_start :=
    {| EAPoLStartPacket.association_id :=
         EAPoLStartPacket.association_id eapol_start;
       EAPoLStartPacket.node :=
         {| EAPoLNodeInfo.friend_code_seed :=
              EAPoLNodeInfo.friend_code_seed
                (EAPoLStartPacket.node eapol_start);
            EAPoLNodeInfo.username :=
              std_copy (NodeInfo.username node_info)
                (EAPoLNodeInfo.username (EAPoLStartPacket.node eapol_start));
            EAPoLNodeInfo.network_node_id :=
              EAPoLNodeInfo.network_node_id
                (EAPoLStartPacket.node eapol_start) |} |} in
  let eapol_buffer := to_bytes eapol_start in
  let buffer := GenerateLLCHeader EAPoL in
  buffer ++ eapol_buffer.

Definition GetFrameEtherType (frame : list Z) : outcome EtherType :=
  bytes <- memcpy_from frame 0 sizeof_LLCHeader ;;
  let header : LLCHeader := of_bytes bytes in
  Ret (protocol header).

Definition DeserializeNodeInfoFromFrame (frame : list Z)
  : outcome NodeInfo.t :=
  bytes <- memcpy_from frame sizeof_LLCHeader sizeof_EAPoLStartPacket ;;
  let eapol_start : EAPoLStartPacket.t := of_bytes bytes in
  let node :=
    {| NodeInfo.friend_code_seed := 0;
       NodeInfo.username := repeat 0 username_size;
       NodeInfo.network_node_id := 0 |} in
  let node :=
    {| NodeInfo.friend_code_seed :=
         EAPoLNodeInfo.friend_code_seed (EAPoLStartPacket.node eapol_start);
       NodeInfo.username := NodeInfo.username node;
       NodeInfo.network_node_id := NodeInfo.network_node_id node |} in
  let node :=
    {| NodeInfo.friend_code_seed := NodeInfo.friend_code_seed node;
       NodeInfo.username :=
         std_copy (EAPoLNodeInfo.username (EAPoLStartPacket.node eapol_start))
                  (NodeInfo.username node);
       NodeInfo.network_node_id := NodeInfo.network_node_id node |} in
  Ret node.

End UdsData.

(** ** The EAPoL-Logoff packet and the remaining functions *)

(** The number of elements of the array [EAPoLLogoffPacket::nodes]. *)
Class LogoffNodes : Type := {
  nodes_size : nat
}.

Module EAPoLLogoffPacket.
Record t : Type := {
  assigned_node_id : Z;
  connected_nodes : Z;
  max_nodes : Z;
  nodes : list EAPoLNodeInfo.t
}.
End EAPoLLogoffPacket.

Definition EAPoLLogoffPacket_wf {U : UsernameBuffer} {N : LogoffNodes}
  (p : EAPoLLogoffPacket.t) : Prop :=
  is_u16 (EAPoLLogoffPacket.assigned_node_id p) /\
  is_u8 (EAPoLLogoffPacket.connected_nodes p) /\
  is_u8 (EAPoLLogoffPacket.max_nodes p) /\
  length (EAPoLLogoffPacket.nodes p) = nodes_size /\
  Forall EAPoLNodeInfo_wf (EAPoLLogoffPacket.nodes p).

Definition sizeof_EAPoLLogoffPacket {U : UsernameBuffer} {N : LogoffNodes}
  {R : ObjRep EAPoLLogoffPacket_wf} : Z := sizeof.

(** [x[index]], read: no bound is checked. *)
Definition at_index {A : Type} (x : list A) (index : nat) : outcome A :=
  match nth_error x index with
  | Some v => Ret v
  | None => Undefined
  end.

(** [x[index] = v] on an element that exists. *)
Definition array_set {A : Type} (x : list A) (index : nat) (v : A) : list A :=
  firstn index x ++ v :: skipn (S index) x.

Section UdsDataRest.

Context {EtherTypes : EtherType_enum}.
Context {LLCHeader_rep : ObjRep LLCHeader_wf}.
Context {Usernames : UsernameBuffer}.
Context {Nodes : LogoffNodes}.
Context {EAPoLLogoffPacket_rep : ObjRep EAPoLLogoffPacket_wf}.

(** [eapol_type] is a [u16_be]: two bytes, read as a big-endian number. *)
Definition GetEAPoLFrameType (frame : list Z) : outcome Z :=
  bytes <- memcpy_from frame sizeof_LLCHeader 2 ;;
  let eapol_type := be_value bytes in
  Ret eapol_type.

Definition DeserializeNodeInfo (node : EAPoLNodeInfo.t) : NodeInfo.t :=
  let node_info :=
    {| NodeInfo.friend_code_seed := 0;
       NodeInfo.username := repeat 0 username_size;
       NodeInfo.network_node_id := 0 |} in
  let node_info :=
    {| NodeInfo.friend_code_seed := EAPoLNodeInfo.friend_code_seed node;
       NodeInfo.username := NodeInfo.username node_info;
       NodeInfo.network_node_id := NodeInfo.network_node_id node_info |} in
  let node_info :=
    {| NodeInfo.friend_code_seed := NodeInfo.friend_code_seed node_info;
       NodeInfo.username := NodeInfo.username node_info;
       NodeInfo.network_node_id := EAPoLNodeInfo.network_node_id node |} in
  let node_info :=
    {| NodeInfo.friend_code_seed := NodeInfo.friend_code_seed node_info;
       NodeInfo.username :=
         std_copy (EAPoLNodeInfo.username node)
                  (NodeInfo.username node_info);
       NodeInfo.network_node_id := NodeInfo.network_node_id node_info |} in
  node_info.

(** The body of the loop of [GenerateEAPoLLogoffFrame], at [index]. *)
Definition GenerateEAPoLLogoffFrame_body (nodes : list NodeInfo.t)
  (state : outcome EAPoLLogoffPacket.t) (index : nat)
  : outcome EAPoLLogoffPacket.t :=
  eapol_logoff <- state ;;
  node_info <- at_index nodes index ;;
  node <- at_index (EAPoLLogoffPacket.nodes eapol_logoff) index ;;
  let node :=
    {| EAPoLNodeInfo.friend_code_seed := NodeInfo.friend_code_seed node_info;
       EAPoLNodeInfo.username := EAPoLNodeInfo.username node;
       EAPoLNodeInfo.network_node_id := EAPoLNodeInfo.network_node_id node |}
  in
  let node :=
    {| EAPoLNodeInfo.friend_code_seed := EAPoLNodeInfo.friend_code_seed node;
       EAPoLNodeInfo.username := EAPoLNodeInfo.username node;
       EAPoLNodeInfo.network_node_id := NodeInfo.network_node_id node_info |}
  in
  let node :=
    {| EAPoLNodeInfo.friend_code_seed := EAPoLNodeInfo.friend_code_seed node;
       EAPoLNodeInfo.username :=
         std_copy (NodeInfo.username node_info) (EAPoLNodeInfo.username node);
       EAPoLNodeInfo.network_node_id := EAPoLNodeInfo.network_node_id node |}
  in
  Ret {| EAPoLLogoffPacket.assigned_node_id :=
           EAPoLLogoffPacket.assigned_node_id eapol_logoff;
         EAPoLLogoffPacket.connected_nodes :=
           EAPoLLogoffPacket.connected_nodes eapol_logoff;
         EAPoLLogoffPacket.max_nodes :=
           EAPoLLogoffPacket.max_nodes eapol_logoff;
         EAPoLLogoffPacket.nodes :=
           array_set (EAPoLLogoffPacket.nodes eapol_logoff) index node |}.

(** [mac_address] is a parameter of the function that its body never
    uses. *)
Definition GenerateEAPoLLogoffFrame (mac_address : list Z)
  (network_node_id : Z) (nodes : list NodeInfo.t)
  (max_nodes total_nodes : Z) : outcome (list Z) :=
  let eapol_logoff :=
    {| EAPoLLogoffPacket.assigned_node_id := network_node_id;
       EAPoLLogoffPacket.connected_nodes := total_nodes;
       EAPoLLogoffPacket.max_nodes := max_nodes;
       EAPoLLogoffPacket.nodes :=
         repeat {| EAPoLNodeInfo.friend_code_seed := 0;
                   EAPoLNodeInfo.username := repeat 0 username_size;
                   EAPoLNodeInfo.network_node_id := 0 |} nodes_size |} in
  eapol_logoff <-
    fold_left (GenerateEAPoLLogoffFrame_body nodes)
              (seq 0 (Z.to_nat max_nodes)) (Ret eapol_logoff) ;;
  let eapol_buffer := to_bytes eapol_logoff in
  let buffer := GenerateLLCHeader EAPoL in
  Ret (buffer ++ eapol_buffer).

Definition ParseEAPoLLogoffFrame (frame : list Z)
  : outcome EAPoLLogoffPacket.t :=
  bytes <- memcpy_from frame sizeof_LLCHeader sizeof_EAPoLLogoffPacket ;;
  let eapol_logoff : EAPoLLogoffPacket.t := of_bytes bytes in
  Ret eapol_logoff.

End UdsDataRest.

(** A node of a packet that no assignment has touched, and the node that
    the loop of [GenerateEAPoLLogoffFrame] makes of a [NodeInfo]. *)
Definition EAPoLNodeInfo_zero {U : UsernameBuffer} : EAPoLNodeInfo.t :=
  {| EAPoLNodeInfo.friend_code_seed := 0;
     EAPoLNodeInfo.username := repeat 0 username_size;
     EAPoLNodeInfo.network_node_id := 0 |}.

Definition EAPoLNodeInfo_of {U : UsernameBuffer} (n : NodeInfo.t)
  : EAPoLNodeInfo.t :=
  {| EAPoLNodeInfo.friend_code_seed := NodeInfo.friend_code_seed n;
     EAPoLNodeInfo.username :=
       std_copy (NodeInfo.username n) (repeat 0 username_size);
     EAPoLNodeInfo.network_node_id := NodeInfo.network_node_id n |}.

(** ** Vocabulary of the statements *)

(** The two addressing bits of the frame control field. *)
Definition to_DS (frame_control : Z) : bool := Z.testbit frame_control 0.
Definition from_DS (frame_control : Z) : bool := Z.testbit frame_control 1.

(** What the [try] block of [EncryptDataFrame] asks of Crypto++. *)
Definition CCM_encrypt (ccmp_key nonce aad payload : list Z)
  : CryptoPP.result (list Z) :=
  CryptoPP.bind
    (CryptoPP.SetKeyWithIV ccmp_key (size ccmp_key) nonce (size nonce))
    (fun d =>
       CryptoPP.bind
         (CryptoPP.SpecifyDataLengths d (size aad) (size payload))
         (fun d => CryptoPP.AuthenticatedEncryptionFilter d aad payload)).

(** What the [try] block of [DecryptDataFrame] asks of Crypto++. *)
Definition CCM_decrypt (ccmp_key nonce aad encrypted_payload : list Z)
  : CryptoPP.result (list Z) :=
  CryptoPP.bind
    (CryptoPP.SetKeyWithIV ccmp_key (size ccmp_key) nonce (size nonce))
    (fun d =>
       CryptoPP.bind
         (CryptoPP.SpecifyDataLengths
            d (size aad) (size_t_sub (size encrypted_payload) 8))
         (fun d =>
            CryptoPP.AuthenticatedDecryptionFilter
              d aad
              (firstn (Z.to_nat (size_t_sub (size encrypted_payload) 8))
                      encrypted_payload)
              (firstn 8 (skipn (Z.to_nat (size encrypted_payload - 8))
                               encrypted_payload)))).

Definition failed_to_encrypt : LogEntry :=
  LOG_ERROR "Service_NWM" "failed to encrypt".
Definition failed_to_decrypt : LogEntry :=
  LOG_ERROR "Service_NWM" "failed to decrypt".

(** ** A layout for the structures

    One choice of the parameters, in the shape that the specification of
    the wire formats gives: integers are big-endian, structures have no
    padding. *)

Lemma be_bytes_length (n : nat) (v : Z) : length (be_bytes n v) = n.
Proof. induction n as [|n IH]; simpl; [reflexivity | now rewrite IH]. Qed.

Lemma be_value_fold (n : nat) (v acc : Z) :
  fold_left (fun a b => a * 256 + b) (be_bytes n v) acc
  = acc * 256 ^ Z.of_nat n + v mod 256 ^ Z.of_nat n.
Proof.
  revert acc; induction n as [|n IH]; intros acc.
  - simpl. rewrite Z.mod_1_r. lia.
  - cbn [be_bytes fold_left]. rewrite IH.
    rewrite Nat2Z.inj_succ, Z.pow_succ_r by lia.
    rewrite (Z.mul_comm 256 (256 ^ Z.of_nat n)).
    rewrite (Z.rem_mul_r v (256 ^ Z.of_nat n) 256) by lia.
    ring.
Qed.

Lemma be_value_be_bytes (n : nat) (v : Z) :
  0 <= v < 256 ^ Z.of_nat n -> be_value (be_bytes n v) = v.
Proof.
  intros Hv. unfold be_value. rewrite be_value_fold.
  rewrite Z.mod_small by exact Hv. lia.
Qed.

Lemma firstn_app_exact {A : Type} (n : nat) (a b : list A) :
  length a = n -> firstn n (a ++ b) = a.
Proof.
  intros <-. rewrite firstn_app, Nat.sub_diag, firstn_all. simpl.
  apply app_nil_r.
Qed.

Lemma skipn_app_exact {A : Type} (n : nat) (a b : list A) :
  length a = n -> skipn n (a ++ b) = b.
Proof.
  intros <-. rewrite skipn_app, Nat.sub_diag, skipn_all. reflexivity.
Qed.

Module SampleLayout.

Definition EtherTypes : EtherType_enum :=
  {| SecureData := 34669; EAPoL := 34958 |}.  (* 0x876D, 0x888E *)

(** Modelled from the spec: the declaration of [LLCHeader] is in
    [uds_data.h], which is not among the sources; its members are the fixed
    SNAP prefix (here AA AA 03 00 00 00) and the 2B protocol. *)
Definition LLCHeader_to_bytes (h : LLCHeader) : list Z :=
  [170; 170; 3; 0; 0; 0] ++ be_bytes 2 (protocol h).

Definition LLCHeader_of_bytes (l : list Z) : LLCHeader :=
  {| protocol := be_value (firstn 2 (skipn 6 l)) |}.

Lemma LLCHeader_of_to_bytes (h : LLCHeader) :
  LLCHeader_wf h -> LLCHeader_of_bytes (LLCHeader_to_bytes h) = h.
Proof.
  destruct h as [p]. unfold LLCHeader_wf, is_u16. simpl. intros Hp.
  unfold LLCHeader_of_bytes, LLCHeader_to_bytes. cbn [app skipn protocol].
  rewrite firstn_all2 by (rewrite be_bytes_length; lia).
  rewrite be_value_be_bytes by (simpl; lia). reflexivity.
Qed.

Definition LLCHeader_rep : ObjRep LLCHeader_wf :=
  {| sizeof := 8;
     to_bytes := LLCHeader_to_bytes;
     of_bytes := LLCHeader_of_bytes;
     to_bytes_size := fun _ => eq_refl;
     of_to_bytes := LLCHeader_of_to_bytes |}.

(** Modelled from the spec: the declaration of [SecureDataHeader] is in
    [uds_data.h], which is not among the sources; its members are
    2B protocolSize, 2B secureDataSize, 1B flags, 1B dataChannel,
    2B sequenceNumber, 2B destNodeId, 2B srcNodeId. *)
Definition SecureDataHeader_to_bytes (h : SecureDataHeader) : list Z :=
  be_bytes 2 (protocol_size h) ++ be_bytes 2 (securedata_size h)
  ++ [is_management h] ++ [data_channel h]
  ++ be_bytes 2 (sequence_number h) ++ be_bytes 2 (dest_node_id h)
  ++ be_bytes 2 (src_node_id h).

Definition SecureDataHeader_of_bytes (l : list Z) : SecureDataHeader :=
  {| protocol_size := be_value (firstn 2 l);
     securedata_size := be_value (firstn 2 (skipn 2 l));
     is_management := nth 4 l 0;
     data_channel := nth 5 l 0;
     sequence_number := be_value (firstn 2 (skipn 6 l));
     dest_node_id := be_value (firstn 2 (skipn 8 l));
     src_node_id := be_value (firstn 2 (skipn 10 l)) |}.

Lemma SecureDataHeader_of_to_bytes (h : SecureDataHeader) :
  SecureDataHeader_wf h ->
  SecureDataHeader_of_bytes (SecureDataHeader_to_bytes h) = h.
Proof.
  destruct h as [ps ss im dc sn dn sr].
  unfold SecureDataHeader_wf, is_u16, is_u8. simpl.
  intros (Hps & Hss & Him & Hdc & Hsn & Hdn & Hsr).
  pose proof (be_value_be_bytes 2 ps) as E1.
  pose proof (be_value_be_bytes 2 ss) as E2.
  pose proof (be_value_be_bytes 2 sn) as E3.
  pose proof (be_value_be_bytes 2 dn) as E4.
  pose proof (be_value_be_bytes 2 sr) as E5.
  unfold SecureDataHeader_of_bytes, SecureDataHeader_to_bytes.
  cbn in *. rewrite E1, E2, E3, E4, E5 by lia. reflexivity.
Qed.

Definition SecureDataHeader_rep : ObjRep SecureDataHeader_wf :=
  {| sizeof := 12;
     to_bytes := SecureDataHeader_to_bytes;
     of_bytes := SecureDataHeader_of_bytes;
     to_bytes_size := fun _ => eq_refl;
     of_to_bytes := SecureDataHeader_of_to_bytes |}.

Definition Usernames : UsernameBuffer := {| username_size := 10 |}.

Definition u16s_to_bytes (l : list Z) : list Z := flat_map (be_bytes 2) l.

Fixpoint u16s_of_bytes (n : nat) (l : list Z) : list Z :=
  match n with
  | O => []
  | S m => be_value (firstn 2 l) :: u16s_of_bytes m (skipn 2 l)
  end.

Lemma u16s_to_bytes_length (l : list Z) :
  length (u16s_to_bytes l) = (2 * length l)%nat.
Proof. induction l as [|x l IH]; simpl; [reflexivity | rewrite IH; lia]. Qed.

Lemma u16s_of_to_bytes (l rest : list Z) :
  Forall is_u16 l ->
  u16s_of_bytes (length l) (u16s_to_bytes l ++ rest) = l.
Proof.
  induction 1 as [|x l Hx Hl IH]; [reflexivity|].
  unfold is_u16 in Hx.
  pose proof (be_value_be_bytes 2 x) as E.
  cbn in *. rewrite E by lia. f_equal. exact IH.
Qed.

(** Modelled from the spec: the declarations of [EAPoLStartPacket] and
    [EAPoLNodeInfo] are in [uds_data.h], which is not among the sources;
    their members are a fixed prelude (here 02 01), 2B associationId, then
    the node: 8B friendCodeSeed, the user name (here 10 characters of 2B)
    and 2B networkNodeId. *)
Definition EAPoLStartPacket_to_bytes (p : EAPoLStartPacket.t) : list Z :=
  let n := EAPoLStartPacket.node p in
  be_bytes 2 513 ++ be_bytes 2 (EAPoLStartPacket.association_id p)
  ++ be_bytes 8 (EAPoLNodeInfo.friend_code_seed n)
  ++ firstn 20 (u16s_to_bytes (EAPoLNodeInfo.username n) ++ repeat 0 20)
  ++ be_bytes 2 (EAPoLNodeInfo.network_node_id n).

Definition EAPoLStartPacket_of_bytes (l : list Z) : EAPoLStartPacket.t :=
  {| EAPoLStartPacket.association_id := be_value (firstn 2 (skipn 2 l));
     EAPoLStartPacket.node :=
       {| EAPoLNodeInfo.friend_code_seed := be_value (firstn 8 (skipn 4 l));
          EAPoLNodeInfo.username := u16s_of_bytes 10 (skipn 12 l);
          EAPoLNodeInfo.network_node_id :=
            be_value (firstn 2 (skipn 32 l)) |} |}.

Lemma EAPoLStartPacket_to_bytes_size (p : EAPoLStartPacket.t) :
  size (EAPoLStartPacket_to_bytes p) = 34.
Proof.
  unfold size, EAPoLStartPacket_to_bytes.
  rewrite !length_app, !be_bytes_length, length_firstn, length_app,
    repeat_length.
  lia.
Qed.

Lemma EAPoLStartPacket_of_to_bytes (p : EAPoLStartPacket.t) :
  EAPoLStartPacket_wf (U := Usernames) p ->
  EAPoLStartPacket_of_bytes (EAPoLStartPacket_to_bytes p) = p.
Proof.
  destruct p as [a [seed name nid]].
  unfold EAPoLStartPacket_wf, EAPoLNodeInfo_wf, is_u16, is_u64. simpl.
  intros (Ha & Hseed & Hlen & Hname & Hnid).
  unfold EAPoLStartPacket_of_bytes, EAPoLStartPacket_to_bytes.
  cbn [EAPoLStartPacket.association_id EAPoLStartPacket.node
       EAPoLNodeInfo.friend_code_seed EAPoLNodeInfo.username
       EAPoLNodeInfo.network_node_id].
  assert (Hl : length (u16s_to_bytes name) = 20%nat)
    by (rewrite u16s_to_bytes_length, Hlen; reflexivity).
  rewrite (firstn_app_exact 20 _ _ Hl).
  set (B := be_bytes 2 513). set (A := be_bytes 2 a).
  set (S := be_bytes 8 seed). set (N := be_bytes 2 nid).
  assert (HB : length B = 2%nat) by apply be_bytes_length.
  assert (HA : length A = 2%nat) by apply be_bytes_length.
  assert (HS : length S = 8%nat) by apply be_bytes_length.
  assert (HN : length N = 2%nat) by apply be_bytes_length.
  f_equal; [| f_equal].
  - rewrite (skipn_app_exact 2 B _ HB), (firstn_app_exact 2 A _ HA).
    apply be_value_be_bytes. simpl. lia.
  - replace (B ++ A ++ S ++ u16s_to_bytes name ++ N)
      with ((B ++ A) ++ S ++ u16s_to_bytes name ++ N)
      by (now rewrite <- app_assoc).
    rewrite (skipn_app_exact 4 (B ++ A) _)
      by (rewrite length_app; lia).
    rewrite (firstn_app_exact 8 S _ HS).
    apply be_value_be_bytes. simpl. lia.
  - replace (B ++ A ++ S ++ u16s_to_bytes name ++ N)
      with ((B ++ A ++ S) ++ u16s_to_bytes name ++ N)
      by (now rewrite <- !app_assoc).
    rewrite (skipn_app_exact 12 (B ++ A ++ S) _)
      by (rewrite !length_app; lia).
    rewrite <- Hlen.
    apply u16s_of_to_bytes. exact Hname.
  - replace (B ++ A ++ S ++ u16s_to_bytes name ++ N)
      with ((B ++ A ++ S ++ u16s_to_bytes name) ++ N)
      by (now rewrite <- !app_assoc).
    rewrite (skipn_app_exact 32 _ N) by (rewrite !length_app; lia).
    rewrite firstn_all2 by lia.
    apply be_value_be_bytes. simpl. lia.
Qed.

Definition EAPoLStartPacket_rep
  : ObjRep (EAPoLStartPacket_wf (U := Usernames)) :=
  {| sizeof := 34;
     to_bytes := EAPoLStartPacket_to_bytes;
     of_bytes := EAPoLStartPacket_of_bytes;
     to_bytes_size := EAPoLStartPacket_to_bytes_size;
     of_to_bytes := EAPoLStartPacket_of_to_bytes |}.

Definition CTR_members : DataFrameCryptoCTR_members :=
  {| wlan_comm_id_bytes := be_bytes 4;
     id_bytes := be_bytes 2;
     network_id_bytes := be_bytes 4 |}.

(** A key storage that holds the same key in every slot. *)
Definition Keys : KeyStorage :=
  {| GetNormalKey := fun _ => map Z.of_nat (seq 1 16) |}.

(** A key, three addresses and a node to run the functions on. *)
Definition ccmp_key : list Z :=
  [192; 193; 194; 195; 196; 197; 198; 199;
   200; 201; 202; 203; 204; 205; 206; 207].
Definition sender : list Z := [2; 0; 0; 0; 0; 1].
Definition receiver : list Z := [2; 0; 0; 0; 0; 2].
Definition bssid : list Z := [2; 0; 0; 0; 0; 3].
Definition node_info : NodeInfo.t :=
  {| NodeInfo.friend_code_seed := 81985529216486895;
     NodeInfo.username := [99; 105; 116; 114; 97; 0; 0; 0; 0; 0];
     NodeInfo.network_node_id := 7 |}.
Definition network_info : NetworkInfo.t :=
  {| NetworkInfo.host_mac_address := bssid;
     NetworkInfo.wlan_comm_id := 305419896;
     NetworkInfo.id := 1;
     NetworkInfo.network_id := 2271560481 |}.

End SampleLayout.

(** A layout for the EAPoL-Logoff packet, in the same shape. *)
Module SampleLogoff.

Definition Nodes : LogoffNodes := {| nodes_size := 16 |}.

(** A node on 30 bytes: 8B friendCodeSeed, 10 characters of 2B, 2B
    networkNodeId. *)
Definition node_to_bytes (n : EAPoLNodeInfo.t) : list Z :=
  be_bytes 8 (EAPoLNodeInfo.friend_code_seed n)
  ++ firstn 20 (SampleLayout.u16s_to_bytes (EAPoLNodeInfo.username n)
                ++ repeat 0 20)
  ++ be_bytes 2 (EAPoLNodeInfo.network_node_id n).

Definition node_of_bytes (l : list Z) : EAPoLNodeInfo.t :=
  {| EAPoLNodeInfo.friend_code_seed := be_value (firstn 8 l);
     EAPoLNodeInfo.username := SampleLayout.u16s_of_bytes 10 (skipn 8 l);
     EAPoLNodeInfo.network_node_id := be_value (firstn 2 (skipn 28 l)) |}.

Fixpoint nodes_of_bytes (n : nat) (l : list Z) : list EAPoLNodeInfo.t :=
  match n with
  | O => []
  | S m => node_of_bytes l :: nodes_of_bytes m (skipn 30 l)
  end.

Lemma node_to_bytes_length (n : EAPoLNodeInfo.t) :
  length (node_to_bytes n) = 30%nat.
Proof.
  unfold node_to_bytes.
  rewrite !length_app, !be_bytes_length, length_firstn, length_app,
    repeat_length.
  lia.
Qed.

Lemma node_of_to_bytes (n : EAPoLNodeInfo.t) (rest : list Z) :
  EAPoLNodeInfo_wf (U := SampleLayout.Usernames) n ->
  node_of_bytes (node_to_bytes n ++ rest) = n.
Proof.
  destruct n as [seed name nid].
  unfold EAPoLNodeInfo_wf, is_u16, is_u64.
  cbn [EAPoLNodeInfo.friend_code_seed EAPoLNodeInfo.username
       EAPoLNodeInfo.network_node_id SampleLayout.Usernames username_size].
  intros (Hseed & Hlen & Hname & Hnid).
  unfold node_of_bytes, node_to_bytes.
  cbn [EAPoLNodeInfo.friend_code_seed EAPoLNodeInfo.username
       EAPoLNodeInfo.network_node_id].
  assert (Hl : length (SampleLayout.u16s_to_bytes name) = 20%nat)
    by (rewrite SampleLayout.u16s_to_bytes_length, Hlen; reflexivity).
  rewrite (firstn_app_exact 20 _ _ Hl).
  set (S := be_bytes 8 seed). set (N := be_bytes 2 nid).
  set (U := SampleLayout.u16s_to_bytes name) in *.
  assert (HS : length S = 8%nat) by apply be_bytes_length.
  assert (HN : length N = 2%nat) by apply be_bytes_length.
  rewrite <- !app_assoc.
  f_equal.
  - rewrite (firstn_app_exact 8 S _ HS).
    apply be_value_be_bytes. simpl. lia.
  - rewrite (skipn_app_exact 8 S _ HS).
    rewrite <- Hlen. apply SampleLayout.u16s_of_to_bytes. exact Hname.
  - replace (S ++ U ++ N ++ rest) with ((S ++ U) ++ N ++ rest)
      by (now rewrite <- app_assoc).
    rewrite (skipn_app_exact 28 (S ++ U) _)
      by (rewrite length_app; lia).
    rewrite (firstn_app_exact 2 N _ HN).
    apply be_value_be_bytes. simpl. lia.
Qed.

Lemma nodes_of_to_bytes (nodes : list EAPoLNodeInfo.t) (rest : list Z) :
  Forall (EAPoLNodeInfo_wf (U := SampleLayout.Usernames)) nodes ->
  nodes_of_bytes (length nodes) (flat_map node_to_bytes nodes ++ rest)
  = nodes.
Proof.
  induction 1 as [|n nodes Hn Hnodes IH]; [reflexivity |].
  cbn [length flat_map nodes_of_bytes]. rewrite <- app_assoc. f_equal.
  - now apply node_of_to_bytes.
  - rewrite (skipn_app_exact 30 _ _ (node_to_bytes_length n)). exact IH.
Qed.

Lemma nodes_to_bytes_length (nodes : list EAPoLNodeInfo.t) :
  length (flat_map node_to_bytes nodes) = (30 * length nodes)%nat.
Proof.
  induction nodes as [|n nodes IH]; [reflexivity |].
  cbn [flat_map length]. rewrite length_app, node_to_bytes_length, IH. lia.
Qed.

(** A two-byte prelude (here 02 02), 2B assignedNodeId, 1B connectedNodes,
    1B maxNodes, then the 16 nodes. *)
Definition EAPoLLogoffPacket_to_bytes (p : EAPoLLogoffPacket.t) : list Z :=
  be_bytes 2 514 ++ be_bytes 2 (EAPoLLogoffPacket.assigned_node_id p)
  ++ [EAPoLLogoffPacket.connected_nodes p] ++ [EAPoLLogoffPacket.max_nodes p]
  ++ firstn 480 (flat_map node_to_bytes (EAPoLLogoffPacket.nodes p)
                 ++ repeat 0 480).

Definition EAPoLLogoffPacket_of_bytes (l : list Z) : EAPoLLogoffPacket.t :=
  {| EAPoLLogoffPacket.assigned_node_id := be_value (firstn 2 (skipn 2 l));
     EAPoLLogoffPacket.connected_nodes := nth 4 l 0;
     EAPoLLogoffPacket.max_nodes := nth 5 l 0;
     EAPoLLogoffPacket.nodes := nodes_of_bytes 16 (skipn 6 l) |}.

Lemma EAPoLLogoffPacket_to_bytes_size (p : EAPoLLogoffPacket.t) :
  size (EAPoLLogoffPacket_to_bytes p) = 486.
Proof.
  unfold size, EAPoLLogoffPacket_to_bytes.
  rewrite !length_app, !be_bytes_length, length_firstn, length_app,
    repeat_length.
  cbn [length]. lia.
Qed.

Lemma EAPoLLogoffPacket_of_to_bytes (p : EAPoLLogoffPacket.t) :
  EAPoLLogoffPacket_wf (U := SampleLayout.Usernames) (N := Nodes) p ->
  EAPoLLogoffPacket_of_bytes (EAPoLLogoffPacket_to_bytes p) = p.
Proof.
  destruct p as [a c m nodes].
  unfold EAPoLLogoffPacket_wf, is_u16, is_u8.
  cbn [EAPoLLogoffPacket.assigned_node_id EAPoLLogoffPacket.connected_nodes
       EAPoLLogoffPacket.max_nodes EAPoLLogoffPacket.nodes Nodes nodes_size].
  intros (Ha & Hc & Hm & Hlen & Hnodes).
  unfold EAPoLLogoffPacket_of_bytes, EAPoLLogoffPacket_to_bytes.
  cbn [EAPoLLogoffPacket.assigned_node_id EAPoLLogoffPacket.connected_nodes
       EAPoLLogoffPacket.max_nodes EAPoLLogoffPacket.nodes].
  assert (Hl : length (flat_map node_to_bytes nodes) = 480%nat)
    by (rewrite nodes_to_bytes_length, Hlen; reflexivity).
  rewrite (firstn_app_exact 480 _ _ Hl).
  pose proof (be_value_be_bytes 2 a) as Ea.
  cbn [be_bytes app skipn firstn nth Z.of_nat] in *.
  f_equal.
  - apply Ea. simpl. lia.
  - rewrite <- Hlen. rewrite <- (app_nil_r (flat_map node_to_bytes nodes)).
    apply nodes_of_to_bytes. exact Hnodes.
Qed.

Definition EAPoLLogoffPacket_rep
  : ObjRep (EAPoLLogoffPacket_wf (U := SampleLayout.Usernames) (N := Nodes)) :=
  {| sizeof := 486;
     to_bytes := EAPoLLogoffPacket_to_bytes;
     of_bytes := EAPoLLogoffPacket_of_bytes;
     to_bytes_size := EAPoLLogoffPacket_to_bytes_size;
     of_to_bytes := EAPoLLogoffPacket_of_to_bytes |}.

(** A second node, and a list of two nodes. *)
Definition node_info_2 : NodeInfo.t :=
  {| NodeInfo.friend_code_seed := 1311768467463790320;
     NodeInfo.username := [117; 100; 115; 0; 0; 0; 0; 0; 0; 0];
     NodeInfo.network_node_id := 2 |}.
Definition node_list : list NodeInfo.t :=
  [SampleLayout.node_info; node_info_2].

End SampleLogoff.

(** * Properties *)

(** ** Buffers *)

Lemma size_nonneg {A : Type} (l : list A) : 0 <= size l.
Proof. unfold size. lia. Qed.

Lemma size_app {A : Type} (a b : list A) : size (a ++ b) = size a + size b.
Proof. unfold size. rewrite length_app. lia. Qed.

Lemma memcpy_from_middle (a b c : list Z) :
  memcpy_from (a ++ b ++ c) (size a) (size b) = Ret b.
Proof.
  unfold memcpy_from.
  pose proof (size_nonneg a). pose proof (size_nonneg b).
  pose proof (size_nonneg c).
  rewrite !size_app.
  replace ((0 <=? size a) && (0 <=? size b)
           && (size a + size b <=? size a + (size b + size c))) with true
    by (symmetry; rewrite !andb_true_iff, !Z.leb_le; lia).
  unfold size. rewrite !Nat2Z.id.
  rewrite (skipn_app_exact _ a _ eq_refl), (firstn_app_exact _ b _ eq_refl).
  reflexivity.
Qed.

Lemma memcpy_from_short (buffer : list Z) (offset n : Z) :
  size buffer < offset + n -> memcpy_from buffer offset n = Undefined.
Proof.
  intros H. unfold memcpy_from.
  replace (offset + n <=? size buffer) with false
    by (symmetry; apply Z.leb_gt; exact H).
  now rewrite andb_false_r.
Qed.

Lemma memcpy_from_enough (buffer : list Z) (offset n : Z) :
  0 <= offset -> 0 <= n -> offset + n <= size buffer ->
  exists bytes, memcpy_from buffer offset n = Ret bytes.
Proof.
  intros Ho Hn H. unfold memcpy_from.
  replace ((0 <=? offset) && (0 <=? n) && (offset + n <=? size buffer))
    with true by (symmetry; rewrite !andb_true_iff, !Z.leb_le; lia).
  eexists. reflexivity.
Qed.


Lemma std_copy_whole {A : Type} (src dst : list A) :
  length src = length dst -> std_copy src dst = src.
Proof.
  intros H. unfold std_copy. rewrite H, skipn_all. apply app_nil_r.
Qed.

(** ** The header codec *)

Section HeaderCodec.

Context {EtherTypes : EtherType_enum}.
Context {LLCHeader_rep : ObjRep LLCHeader_wf}.
Context {SecureDataHeader_rep : ObjRep SecureDataHeader_wf}.
Context {Usernames : UsernameBuffer}.
Context {EAPoLStartPacket_rep : ObjRep EAPoLStartPacket_wf}.

Lemma sizeof_LLCHeader_nonneg : 0 <= sizeof_LLCHeader.
Proof.
  unfold sizeof_LLCHeader.
  rewrite <- (to_bytes_size {| protocol := 0 |}). apply size_nonneg.
Qed.



Lemma GenerateSecureDataHeader_size
  (data_size channel dest_node_id src_node_id sequence_number : Z) :
  size (GenerateSecureDataHeader data_size channel dest_node_id src_node_id
                                 sequence_number)
  = sizeof_SecureDataHeader.
Proof. unfold GenerateSecureDataHeader. apply to_bytes_size. Qed.

Lemma GenerateLLCHeader_size (protocol : EtherType) :
  size (GenerateLLCHeader protocol) = sizeof_LLCHeader.
Proof. unfold GenerateLLCHeader. apply to_bytes_size. Qed.

(** What the parser reads back from a generated frame, for a payload of any
    length: both size members are reduced modulo 2^16. *)
Lemma ParseSecureDataHeader_GenerateDataPayload_mod
  (data : list Z) (channel dest_node src_node sequence_number : Z) :
  is_u8 channel -> is_u16 dest_node -> is_u16 src_node ->
  is_u16 sequence_number ->
  ParseSecureDataHeader
    (GenerateDataPayload data channel dest_node src_node sequence_number)
  = Ret {| protocol_size := (size data + sizeof_SecureDataHeader) mod 65536;
           securedata_size :=
             (size data + sizeof_SecureDataHeader - 4) mod 65536;
           is_management := 0;
           data_channel := channel;
           sequence_number := sequence_number;
           dest_node_id := dest_node;
           src_node_id := src_node |}.
Proof.
  intros Hc Hd Hs Hq.
  unfold ParseSecureDataHeader, GenerateDataPayload.
  rewrite <- app_assoc.
  rewrite <- (GenerateLLCHeader_size SecureData).
  rewrite <- (GenerateSecureDataHeader_size
                (to_u16 (size data)) channel dest_node src_node
                sequence_number) at 1.
  rewrite memcpy_from_middle. cbn [bind].
  unfold GenerateSecureDataHeader. rewrite of_to_bytes.
  - unfold to_u16. f_equal. f_equal.
    + now rewrite Z.add_mod_idemp_l by lia.
    + rewrite <- Z.add_sub_assoc, Z.add_mod_idemp_l by lia.
      now rewrite Z.add_sub_assoc.
  - unfold SecureDataHeader_wf, is_u16, is_u8, to_u16 in *. cbn.
    repeat split; try lia; apply Z.mod_pos_bound; lia.
Qed.

(** C2 (as amended): when the payload length plus the size of the
    SecureData header fits the 16-bit size member, parsing the frame that
    [GenerateDataPayload] builds recovers protocol_size = payload length +
    sizeof(SecureDataHeader), securedata_size = protocol_size - 4,
    is_management = 0 and the data channel, sequence number, destination and
    source node ids that were supplied. *)
Theorem ParseSecureDataHeader_GenerateDataPayload
  (data : list Z) (channel dest_node src_node sequence_number : Z) :
  4 <= sizeof_SecureDataHeader ->
  size data + sizeof_SecureDataHeader <= 65535 ->
  is_u8 channel -> is_u16 dest_node -> is_u16 src_node ->
  is_u16 sequence_number ->
  ParseSecureDataHeader
    (GenerateDataPayload data channel dest_node src_node sequence_number)
  = Ret {| protocol_size := size data + sizeof_SecureDataHeader;
           securedata_size := size data + sizeof_SecureDataHeader - 4;
           is_management := 0;
           data_channel := channel;
           sequence_number := sequence_number;
           dest_node_id := dest_node;
           src_node_id := src_node |}.
Proof.
  intros H4 Hfit Hc Hd Hs Hq.
  rewrite ParseSecureDataHeader_GenerateDataPayload_mod by assumption.
  pose proof (size_nonneg data).
  rewrite !Z.mod_small by lia. reflexivity.
Qed.

(** C9 (as amended): no size is rejected.  [GenerateSecureDataHeader]
    returns a header of sizeof(SecureDataHeader) bytes for every size;
    [GenerateDataPayload] reduces the length of the payload modulo 2^16, and
    returns the LLC header, the SecureData header for that reduced size and
    the whole payload, whatever the length of the payload; the frame parses
    back to a header whose size members have wrapped around. *)
Theorem GenerateDataPayload_rejects_no_size
  (data : list Z) (channel dest_node src_node sequence_number : Z) :
  is_u8 channel -> is_u16 dest_node -> is_u16 src_node ->
  is_u16 sequence_number ->
  (forall data_size,
     size (GenerateSecureDataHeader data_size channel dest_node src_node
                                    sequence_number)
     = sizeof_SecureDataHeader) /\
  GenerateDataPayload data channel dest_node src_node sequence_number
  = GenerateLLCHeader SecureData
    ++ GenerateSecureDataHeader (size data mod 65536) channel dest_node
                                src_node sequence_number
    ++ data /\
  exists header,
    ParseSecureDataHeader
      (GenerateDataPayload data channel dest_node src_node sequence_number)
    = Ret header /\
    protocol_size header = (size data + sizeof_SecureDataHeader) mod 65536 /\
    securedata_size header
    = (size data + sizeof_SecureDataHeader - 4) mod 65536.
Proof.
  intros Hc Hd Hs Hq. split; [| split].
  - intros data_size. apply GenerateSecureDataHeader_size.
  - unfold GenerateDataPayload. now rewrite <- app_assoc.
  - eexists. split.
    + apply ParseSecureDataHeader_GenerateDataPayload_mod; assumption.
    + split; reflexivity.
Qed.



End HeaderCodec.

(** ** The additional authenticated data and the nonce *)

Lemma land_shiftl_1 (x n : Z) :
  0 <= n -> negb (Z.land x (Z.shiftl 1 n) =? 0) = Z.testbit x n.
Proof.
  intros Hn. rewrite Z.shiftl_1_l.
  assert (Hbits : forall m, 0 <= m ->
            Z.testbit (Z.land x (2 ^ n)) m
            = if Z.testbit x n then Z.testbit (2 ^ n) m else false).
  { intros m Hm. rewrite Z.land_spec, Z.pow2_bits_eqb by lia.
    destruct (Z.eqb_spec n m) as [-> | Hne].
    - destruct (Z.testbit x m); reflexivity.
    - rewrite andb_false_r. destruct (Z.testbit x n); reflexivity. }
  destruct (Z.testbit x n).
  - assert (E : Z.land x (2 ^ n) = 2 ^ n)
      by (apply Z.bits_inj'; intros m Hm; now rewrite Hbits).
    rewrite E. pose proof (Z.pow_pos_nonneg 2 n).
    destruct (Z.eqb_spec (2 ^ n) 0); [lia | reflexivity].
  - assert (E : Z.land x (2 ^ n) = 0)
      by (apply Z.bits_inj'; intros m Hm; now rewrite Hbits, Z.bits_0).
    rewrite E. reflexivity.
Qed.

Lemma land_mask_u16 (x : Z) : 0 <= Z.land x AADFrameControlMask < 65536.
Proof.
  assert (E : Z.land x AADFrameControlMask
              = Z.land x AADFrameControlMask mod 2 ^ 16).
  { rewrite <- Z.land_ones by lia. rewrite <- Z.land_assoc. reflexivity. }
  rewrite E. apply Z.mod_pos_bound. lia.
Qed.

(** The outcome of [GenerateCCMPAAD], case by case. *)
Lemma GenerateCCMPAAD_eq (sender receiver bssid : list Z) (frame_control : Z) :
  GenerateCCMPAAD sender receiver bssid frame_control
  = if Bool.eqb (to_DS frame_control) (from_DS frame_control) then Abort
    else if from_DS frame_control then
      Ret (be_bytes 2 (Z.land frame_control AADFrameControlMask)
           ++ receiver ++ bssid ++ sender ++ be_bytes 2 0)
    else
      Ret (be_bytes 2 (Z.land frame_control AADFrameControlMask)
           ++ bssid ++ sender ++ receiver ++ be_bytes 2 0).
Proof.
  unfold GenerateCCMPAAD, to_DS, from_DS.
  rewrite !land_shiftl_1 by lia.
  destruct (Z.testbit frame_control 0), (Z.testbit frame_control 1);
    reflexivity.
Qed.

Lemma GenerateCCMPAAD_Ret (sender receiver bssid : list Z) (frame_control : Z) :
  to_DS frame_control <> from_DS frame_control ->
  GenerateCCMPAAD sender receiver bssid frame_control
  = Ret (be_bytes 2 (Z.land frame_control AADFrameControlMask)
         ++ (if from_DS frame_control then receiver ++ bssid ++ sender
             else bssid ++ sender ++ receiver)
         ++ be_bytes 2 0).
Proof.
  intros H. rewrite GenerateCCMPAAD_eq.
  destruct (to_DS frame_control), (from_DS frame_control);
    try congruence; cbn [Bool.eqb]; now rewrite <- ?app_assoc.
Qed.

Lemma GenerateCCMPAAD_Abort (sender receiver bssid : list Z) (frame_control : Z) :
  to_DS frame_control = from_DS frame_control ->
  GenerateCCMPAAD sender receiver bssid frame_control = Abort.
Proof.
  intros H. rewrite GenerateCCMPAAD_eq, H.
  now destruct (from_DS frame_control).
Qed.

Lemma GenerateCCMPAAD_length (sender receiver bssid : list Z)
  (frame_control : Z) :
  length sender = 6%nat -> length receiver = 6%nat ->
  length bssid = 6%nat ->
  to_DS frame_control <> from_DS frame_control ->
  exists aad,
    GenerateCCMPAAD sender receiver bssid frame_control = Ret aad /\
    length aad = 22%nat.
Proof.
  intros Hs Hr Hb Hds. eexists. split.
  - apply GenerateCCMPAAD_Ret. exact Hds.
  - destruct (from_DS frame_control);
      rewrite !length_app, !be_bytes_length, Hs, Hr, Hb; reflexivity.
Qed.

(** C3: with exactly one of to-DS and from-DS set, the AAD is 22 bytes:
    the frame control ANDed with 0x8FC7 on two bytes (high byte first), then
    A1, A2, A3 and a sequence control of zero; A1 = receiver, A2 = bssid,
    A3 = sender when from-DS is set, A1 = bssid, A2 = sender, A3 = receiver
    when to-DS is.  The vector is given entry by entry, and its first two
    entries are bytes whatever the frame control. *)
Theorem GenerateCCMPAAD_bytes (sender receiver bssid : list Z)
  (frame_control : Z) :
  length sender = 6%nat -> length receiver = 6%nat ->
  length bssid = 6%nat ->
  to_DS frame_control <> from_DS frame_control ->
  exists aad,
    GenerateCCMPAAD sender receiver bssid frame_control = Ret aad /\
    length aad = 22%nat /\
    aad = [Z.land frame_control 36807 / 256;
           Z.land frame_control 36807 mod 256]
          ++ (if from_DS frame_control then receiver ++ bssid ++ sender
              else bssid ++ sender ++ receiver)
          ++ [0; 0] /\
    firstn 2 aad = be_bytes 2 (Z.land frame_control 36807) /\
    Forall is_u8 (firstn 2 aad) /\
    be_value (firstn 2 aad) = Z.land frame_control 36807 /\
    firstn 18 (skipn 2 aad)
    = (if from_DS frame_control then receiver ++ bssid ++ sender
       else bssid ++ sender ++ receiver) /\
    skipn 20 aad = [0; 0].
Proof.
  intros Hs Hr Hb Hds. eexists. split.
  - apply GenerateCCMPAAD_Ret. exact Hds.
  - set (fc := be_bytes 2 (Z.land frame_control AADFrameControlMask)).
    set (addresses := if from_DS frame_control
                      then receiver ++ bssid ++ sender
                      else bssid ++ sender ++ receiver).
    assert (Hfc : length fc = 2%nat) by apply be_bytes_length.
    assert (Ha : length addresses = 18%nat)
      by (unfold addresses; destruct (from_DS frame_control);
          rewrite !length_app; lia).
    pose proof (land_mask_u16 frame_control) as Hm.
    assert (Hbytes : fc = [Z.land frame_control 36807 / 256;
                           Z.land frame_control 36807 mod 256]).
    { unfold fc, AADFrameControlMask in *. cbn [be_bytes Z.of_nat].
      change (256 ^ Z.of_nat 1) with 256. change (256 ^ Z.of_nat 0) with 1.
      rewrite Z.div_1_r. f_equal.
      apply Z.mod_small. split.
      - apply Z.div_pos; lia.
      - apply Z.div_lt_upper_bound; lia. }
    split; [| split; [| split; [| split; [| split; [| split]]]]].
    + rewrite !length_app, Hfc, Ha. reflexivity.
    + rewrite Hbytes. reflexivity.
    + apply (firstn_app_exact 2 fc _ Hfc).
    + rewrite (firstn_app_exact 2 fc _ Hfc), Hbytes.
      unfold AADFrameControlMask in Hm.
      repeat constructor.
      * apply Z.div_pos; lia.
      * apply Z.div_lt_upper_bound; lia.
      * apply Z.mod_pos_bound; lia.
      * apply Z.mod_pos_bound; lia.
    + rewrite (firstn_app_exact 2 fc _ Hfc). unfold fc.
      apply be_value_be_bytes. apply land_mask_u16.
    + rewrite (skipn_app_exact 2 fc _ Hfc).
      apply (firstn_app_exact 18 addresses _ Ha).
    + rewrite app_assoc. apply skipn_app_exact.
      rewrite length_app. lia.
Qed.

(** C6: [GenerateCCMPAAD] ends the process exactly when to-DS and from-DS
    are both set or both clear, and returns an AAD exactly when one of them
    is set; [EncryptDataFrame] and [DecryptDataFrame], which call it first,
    end the process on the same frame controls. *)
Theorem GenerateCCMPAAD_addressing_mode (sender receiver bssid : list Z)
  (frame_control : Z) :
  (GenerateCCMPAAD sender receiver bssid frame_control = Abort
   <-> to_DS frame_control = from_DS frame_control) /\
  ((exists aad, GenerateCCMPAAD sender receiver bssid frame_control = Ret aad)
   <-> to_DS frame_control <> from_DS frame_control) /\
  (forall payload ccmp_key sequence_number,
     to_DS frame_control = from_DS frame_control ->
     EncryptDataFrame payload ccmp_key sender receiver bssid
                      sequence_number frame_control = Abort /\
     DecryptDataFrame payload ccmp_key sender receiver bssid
                      sequence_number frame_control = Abort).
Proof.
  repeat split.
  - rewrite GenerateCCMPAAD_eq.
    destruct (to_DS frame_control), (from_DS frame_control);
      cbn; congruence.
  - apply GenerateCCMPAAD_Abort.
  - intros [aad E] H. rewrite (GenerateCCMPAAD_Abort _ _ _ _ H) in E.
    discriminate.
  - intros H. eexists. apply GenerateCCMPAAD_Ret. exact H.
  - unfold EncryptDataFrame. now rewrite GenerateCCMPAAD_Abort.
  - unfold DecryptDataFrame. now rewrite GenerateCCMPAAD_Abort.
Qed.

Lemma packet_number_bytes (sequence_number : Z) :
  [Z.land (Z.shiftr sequence_number 8) 255; Z.land sequence_number 255]
  = be_bytes 2 sequence_number.
Proof.
  change 255 with (Z.ones 8).
  rewrite !Z.land_ones, Z.shiftr_div_pow2 by lia.
  cbn [be_bytes Z.of_nat]. now rewrite Z.pow_0_r, Z.div_1_r.
Qed.

(** ** The encryption pipeline *)

Lemma lxor_cancel (x k : Z) : Z.lxor (Z.lxor x k) k = x.
Proof. now rewrite Z.lxor_assoc, Z.lxor_nilpotent, Z.lxor_0_r. Qed.

Lemma bytes_eqb_refl (a : list Z) : bytes_eqb a a = true.
Proof. unfold bytes_eqb. destruct (list_eq_dec Z.eq_dec a a); congruence. Qed.

Lemma bytes_eqb_false (a b : list Z) : a <> b -> bytes_eqb a b = false.
Proof. unfold bytes_eqb. destruct (list_eq_dec Z.eq_dec a b); congruence. Qed.

Lemma xor_bytes_length (n : nat) (a b : list Z) :
  length (xor_bytes n a b) = n.
Proof. unfold xor_bytes. now rewrite length_map, length_seq. Qed.

Lemma CTR_ProcessData_length (key iv : list Z) (start : Z) (data : list Z) :
  length (CryptoPP.CTR_ProcessData key iv start data) = length data.
Proof.
  unfold CryptoPP.CTR_ProcessData.
  rewrite length_map, length_combine, length_seq. apply Nat.min_id.
Qed.

(** Counter mode is its own inverse. *)
Lemma CTR_ProcessData_involutive (key iv : list Z) (start : Z)
  (data : list Z) :
  CryptoPP.CTR_ProcessData key iv start
    (CryptoPP.CTR_ProcessData key iv start data) = data.
Proof.
  unfold CryptoPP.CTR_ProcessData.
  set (f := fun jb : nat * Z =>
              Z.lxor (snd jb) (CryptoPP.KeystreamByte key iv start (fst jb))).
  generalize 0%nat as a.
  induction data as [|x data IH]; intros a; [reflexivity|].
  cbn [length seq combine map]. f_equal.
  - unfold f. cbn [fst snd]. apply lxor_cancel.
  - apply IH.
Qed.

Lemma Crypt_length (d : CryptoPP.CCM) (data : list Z) :
  length (CryptoPP.Crypt d data) = length data.
Proof. unfold CryptoPP.Crypt. apply CTR_ProcessData_length. Qed.

Lemma Crypt_involutive (d : CryptoPP.CCM) (data : list Z) :
  CryptoPP.Crypt d (CryptoPP.Crypt d data) = data.
Proof. unfold CryptoPP.Crypt. apply CTR_ProcessData_involutive. Qed.

Lemma Tag_length (d : CryptoPP.CCM) (aad msg : list Z) :
  length (CryptoPP.Tag d aad msg) = 8%nat.
Proof. unfold CryptoPP.Tag. apply xor_bytes_length. Qed.

Lemma SetKeyWithIV_inr (k : list Z) (keylen : Z) (iv : list Z) (ivlen : Z)
  (d : CryptoPP.CCM) :
  CryptoPP.SetKeyWithIV k keylen iv ivlen = inr d ->
  keylen = 16 /\ 7 <= ivlen <= 13 /\
  d = {| CryptoPP.key := k; CryptoPP.nonce := iv; CryptoPP.L := 15 - ivlen;
         CryptoPP.aad_length := 0; CryptoPP.message_length := 0 |}.
Proof.
  unfold CryptoPP.SetKeyWithIV.
  destruct (Z.eqb_spec keylen 16); cbn [negb]; [| discriminate].
  destruct (Z.leb_spec 7 ivlen), (Z.leb_spec ivlen 13); cbn [andb];
    try discriminate.
  intros [= <-]. repeat split; lia.
Qed.

Lemma MaxMessageLength_bound (d : CryptoPP.CCM) :
  CryptoPP.MaxMessageLength d < 2 ^ 64.
Proof.
  unfold CryptoPP.MaxMessageLength.
  destruct (Z.ltb_spec (CryptoPP.L d) 8); [| lia].
  assert (2 ^ (8 * CryptoPP.L d) <= 2 ^ 56)
    by (apply Z.pow_le_mono_r; lia).
  lia.
Qed.

Lemma SpecifyDataLengths_inr (d d' : CryptoPP.CCM)
  (headerLength messageLength : Z) :
  CryptoPP.SpecifyDataLengths d headerLength messageLength = inr d' ->
  messageLength <= CryptoPP.MaxMessageLength d /\
  d' = {| CryptoPP.key := CryptoPP.key d; CryptoPP.nonce := CryptoPP.nonce d;
          CryptoPP.L := CryptoPP.L d;
          CryptoPP.aad_length := headerLength;
          CryptoPP.message_length := messageLength |}.
Proof.
  unfold CryptoPP.SpecifyDataLengths.
  destruct (CryptoPP.MaxHeaderLength <? headerLength); [discriminate |].
  destruct (Z.ltb_spec (CryptoPP.MaxMessageLength d) messageLength);
    [discriminate |].
  intros [= <-]. split; [assumption | reflexivity].
Qed.

(** The engine: what [CCM_encrypt] returns, [CCM_decrypt] takes back. *)
Lemma CCM_decrypt_encrypt (ccmp_key nonce aad payload cipher : list Z) :
  CCM_encrypt ccmp_key nonce aad payload = inr cipher ->
  size cipher = size payload + 8 /\
  CCM_decrypt ccmp_key nonce aad cipher = inr payload.
Proof.
  unfold CCM_encrypt, CCM_decrypt.
  destruct (CryptoPP.SetKeyWithIV ccmp_key (size ccmp_key) nonce (size nonce))
    as [e | d]; cbn [CryptoPP.bind]; [discriminate |].
  destruct (CryptoPP.SpecifyDataLengths d (size aad) (size payload))
    as [e | d'] eqn:E2; cbn [CryptoPP.bind]; [discriminate |].
  unfold CryptoPP.AuthenticatedEncryptionFilter.
  destruct (CryptoPP.LengthsMatch d' aad payload) eqn:E3; [| discriminate].
  intros [= <-].
  pose proof (SpecifyDataLengths_inr _ _ _ _ E2) as [Hmax _].
  pose proof (MaxMessageLength_bound d) as Hbound.
  pose proof (size_nonneg payload) as Hp.
  set (c := CryptoPP.Crypt d' payload).
  set (t := CryptoPP.Tag d' aad payload).
  assert (Hc : length c = length payload) by exact (Crypt_length _ _).
  assert (Ht : length t = 8%nat) by exact (Tag_length _ _ _).
  assert (Hsize : size (c ++ t) = size payload + 8)
    by (unfold size; rewrite length_app, Hc, Ht; lia).
  split; [exact Hsize |].
  rewrite Hsize. unfold size_t_sub.
  replace (size payload + 8 - 8) with (size payload) by lia.
  rewrite Z.mod_small by lia. rewrite E2. cbn [CryptoPP.bind].
  unfold size at 1 2. rewrite Nat2Z.id, <- Hc.
  rewrite (firstn_app_exact _ c t eq_refl), (skipn_app_exact _ c t eq_refl).
  rewrite firstn_all2 by lia.
  unfold CryptoPP.AuthenticatedDecryptionFilter.
  assert (E4 : CryptoPP.LengthsMatch d' aad c = true)
    by (unfold CryptoPP.LengthsMatch, size in *; now rewrite Hc).
  rewrite E4.
  assert (E5 : CryptoPP.Crypt d' c = payload)
    by exact (Crypt_involutive _ _).
  rewrite E5. fold t. now rewrite bytes_eqb_refl.
Qed.

(** The engine accepts every payload that the two-byte length field of a
    13-byte nonce can describe. *)
Lemma CCM_encrypt_accepts (ccmp_key nonce aad payload : list Z) :
  length ccmp_key = 16%nat -> length nonce = 13%nat ->
  size aad < 2 ^ 64 -> size payload <= 65535 ->
  exists cipher, CCM_encrypt ccmp_key nonce aad payload = inr cipher.
Proof.
  intros Hk Hn Ha Hp. unfold CCM_encrypt, size. rewrite Hk, Hn.
  cbn [CryptoPP.SetKeyWithIV Z.of_nat Pos.of_succ_nat Pos.succ Z.eqb Pos.eqb
       negb Z.leb Z.compare Pos.compare Pos.compare_cont andb CryptoPP.bind
       Z.sub Z.add Z.opp Z.pos_sub Z.succ_double Z.pred_double Z.double
       Pos.pred_double].
  unfold CryptoPP.SpecifyDataLengths, CryptoPP.MaxHeaderLength.
  destruct (Z.ltb_spec (2 ^ 64 - 1) (Z.of_nat (length aad)));
    [unfold size in Ha; lia |].
  unfold CryptoPP.MaxMessageLength. cbn [CryptoPP.L].
  change (2 <? 8) with true. cbv iota.
  destruct (Z.ltb_spec (2 ^ (8 * 2) - 1) (Z.of_nat (length payload)));
    [unfold size in Hp; change (2 ^ (8 * 2)) with 65536 in *; lia |].
  cbn [CryptoPP.bind]. unfold CryptoPP.AuthenticatedEncryptionFilter,
    CryptoPP.LengthsMatch, size. cbn [CryptoPP.aad_length
    CryptoPP.message_length]. rewrite !Z.eqb_refl. cbn [andb].
  eexists. reflexivity.
Qed.

Lemma nonce_size (sender : list Z) (sequence_number : Z) :
  length sender = 6%nat ->
  size (DecryptDataFrame_nonce sender sequence_number) = 13.
Proof.
  intros Hs. unfold size, DecryptDataFrame_nonce.
  rewrite !length_app, Hs. reflexivity.
Qed.

(** [EncryptDataFrame] once the AAD is built. *)
Lemma EncryptDataFrame_eq (payload ccmp_key sender receiver bssid : list Z)
  (sequence_number frame_control : Z) (aad : list Z) :
  GenerateCCMPAAD sender receiver bssid frame_control = Ret aad ->
  EncryptDataFrame payload ccmp_key sender receiver bssid sequence_number
                   frame_control
  = match CCM_encrypt ccmp_key
            (EncryptDataFrame_nonce sender sequence_number) aad payload with
    | inr cipher => Ret (cipher, [])
    | inl _ => Ret ([], [failed_to_encrypt])
    end.
Proof.
  intros Haad. unfold EncryptDataFrame, CCM_encrypt. rewrite Haad.
  cbn [bind].
  destruct (CryptoPP.SetKeyWithIV _ _ _ _) as [e | d];
    cbn [lift bind CryptoPP.bind try_catch_CryptoPP]; [reflexivity |].
  destruct (CryptoPP.SpecifyDataLengths _ _ _) as [e | d'];
    cbn [lift bind CryptoPP.bind try_catch_CryptoPP]; [reflexivity |].
  destruct (CryptoPP.AuthenticatedEncryptionFilter _ _ _) as [e | cipher];
    reflexivity.
Qed.

(** [DecryptDataFrame] once the AAD is built: with a nonce of 13 bytes
    the two reads of the payload stay inside the buffer. *)
Lemma DecryptDataFrame_eq
  (encrypted_payload ccmp_key sender receiver bssid : list Z)
  (sequence_number frame_control : Z) (aad : list Z) :
  length sender = 6%nat ->
  GenerateCCMPAAD sender receiver bssid frame_control = Ret aad ->
  DecryptDataFrame encrypted_payload ccmp_key sender receiver bssid
                   sequence_number frame_control
  = match CCM_decrypt ccmp_key
            (DecryptDataFrame_nonce sender sequence_number) aad
            encrypted_payload with
    | inr pdata => Ret (pdata, [])
    | inl _ => Ret ([], [failed_to_decrypt])
    end.
Proof.
  intros Hs Haad. unfold DecryptDataFrame, CCM_decrypt. rewrite Haad.
  cbn [bind]. rewrite (nonce_size sender sequence_number Hs).
  destruct (CryptoPP.SetKeyWithIV _ _ _ _) as [e | d] eqn:E1;
    cbn [lift bind CryptoPP.bind try_catch_CryptoPP]; [reflexivity |].
  apply SetKeyWithIV_inr in E1 as (_ & _ & ->).
  destruct (CryptoPP.SpecifyDataLengths _ _ _) as [e | d'] eqn:E2;
    cbn [lift bind CryptoPP.bind try_catch_CryptoPP]; [reflexivity |].
  apply SpecifyDataLengths_inr in E2 as [Hmax _].
  unfold CryptoPP.MaxMessageLength in Hmax. cbn [CryptoPP.L] in Hmax.
  change (15 - 13 <? 8) with true in Hmax.
  change (2 ^ (8 * (15 - 13)) - 1) with 65535 in Hmax. cbv iota in Hmax.
  pose proof (size_nonneg encrypted_payload) as Hn.
  unfold size_t_sub in *.
  assert (H8 : 8 <= size encrypted_payload).
  { destruct (Z.le_gt_cases 8 (size encrypted_payload)) as [H | H];
      [exact H |].
    assert (E : (size encrypted_payload - 8) mod 2 ^ 64
                = size encrypted_payload - 8 + 2 ^ 64)
      by (symmetry; apply Z.mod_unique with (q := -1); lia).
    lia. }
  pose proof (Z.mod_le (size encrypted_payload - 8) (2 ^ 64)) as Hle.
  pose proof (Z.mod_pos_bound (size encrypted_payload - 8) (2 ^ 64)) as Hpos.
  unfold memcpy_from.
  replace ((0 <=? 0)
           && (0 <=? (size encrypted_payload - 8) mod 2 ^ 64)
           && (0 + (size encrypted_payload - 8) mod 2 ^ 64
               <=? size encrypted_payload)) with true
    by (symmetry; rewrite !andb_true_iff, !Z.leb_le; lia).
  replace ((0 <=? size encrypted_payload - 8) && (0 <=? 8)
           && (size encrypted_payload - 8 + 8 <=? size encrypted_payload))
    with true by (symmetry; rewrite !andb_true_iff, !Z.leb_le; lia).
  cbn [bind]. change (Z.to_nat 0) with 0%nat. change (Z.to_nat 8) with 8%nat.
  cbn [skipn].
  destruct (CryptoPP.AuthenticatedDecryptionFilter _ _ _ _) as [e | pdata];
    reflexivity.
Qed.

Lemma EncryptDataFrame_not_Fail
  (payload ccmp_key sender receiver bssid : list Z)
  (sequence_number frame_control : Z) (f : failure) :
  EncryptDataFrame payload ccmp_key sender receiver bssid sequence_number
                   frame_control <> Fail f.
Proof.
  destruct (GenerateCCMPAAD sender receiver bssid frame_control)
    as [aad | f' | |] eqn:E.
  - rewrite (EncryptDataFrame_eq _ _ _ _ _ _ _ _ E).
    destruct (CCM_encrypt _ _ _ _); discriminate.
  - rewrite GenerateCCMPAAD_eq in E.
    destruct (Bool.eqb (to_DS frame_control) (from_DS frame_control));
      [discriminate |].
    destruct (from_DS frame_control); discriminate.
  - unfold EncryptDataFrame. rewrite E. discriminate.
  - unfold EncryptDataFrame. rewrite E. discriminate.
Qed.

Lemma DecryptDataFrame_not_Fail
  (encrypted_payload ccmp_key sender receiver bssid : list Z)
  (sequence_number frame_control : Z) (f : failure) :
  DecryptDataFrame encrypted_payload ccmp_key sender receiver bssid
                   sequence_number frame_control <> Fail f.
Proof.
  unfold DecryptDataFrame.
  destruct (GenerateCCMPAAD sender receiver bssid frame_control)
    as [aad | f' | |] eqn:E; cbn [bind]; try discriminate.
  - destruct (CryptoPP.SetKeyWithIV _ _ _ _) as [e | d];
      cbn [lift bind try_catch_CryptoPP]; [discriminate |].
    destruct (CryptoPP.SpecifyDataLengths _ _ _) as [e | d'];
      cbn [lift bind try_catch_CryptoPP]; [discriminate |].
    unfold memcpy_from.
    destruct (_ && _); cbn [bind try_catch_CryptoPP]; [| discriminate].
    destruct (_ && _); cbn [bind try_catch_CryptoPP]; [| discriminate].
    destruct (CryptoPP.AuthenticatedDecryptionFilter _ _ _ _) as [e | pdata];
      discriminate.
  - rewrite GenerateCCMPAAD_eq in E.
    destruct (Bool.eqb (to_DS frame_control) (from_DS frame_control));
      [discriminate |].
    destruct (from_DS frame_control); discriminate.
Qed.

(** C5: the nonce of [EncryptDataFrame] and of [DecryptDataFrame] is the
    same 13 bytes: a priority of zero, the six bytes of the sender, four
    zero bytes and the sequence number on two bytes, big-endian; it is the
    nonce that both functions hand to the CCM engine. *)
Theorem CCM_nonce_bytes (sender : list Z) (sequence_number : Z) :
  length sender = 6%nat -> is_u16 sequence_number ->
  let nonce := [0] ++ sender ++ [0; 0; 0; 0] ++ be_bytes 2 sequence_number in
  length nonce = 13%nat /\
  be_value (skipn 11 nonce) = sequence_number /\
  EncryptDataFrame_nonce sender sequence_number = nonce /\
  DecryptDataFrame_nonce sender sequence_number = nonce /\
  (forall data ccmp_key receiver bssid frame_control aad,
     GenerateCCMPAAD sender receiver bssid frame_control = Ret aad ->
     EncryptDataFrame data ccmp_key sender receiver bssid sequence_number
                      frame_control
     = match CCM_encrypt ccmp_key nonce aad data with
       | inr cipher => Ret (cipher, [])
       | inl _ => Ret ([], [failed_to_encrypt])
       end /\
     DecryptDataFrame data ccmp_key sender receiver bssid sequence_number
                      frame_control
     = match CCM_decrypt ccmp_key nonce aad data with
       | inr pdata => Ret (pdata, [])
       | inl _ => Ret ([], [failed_to_decrypt])
       end).
Proof.
  intros Hs Hq nonce.
  assert (E : EncryptDataFrame_nonce sender sequence_number = nonce)
    by (unfold EncryptDataFrame_nonce, nonce;
        now rewrite <- packet_number_bytes).
  assert (D : DecryptDataFrame_nonce sender sequence_number = nonce)
    by exact E.
  repeat split.
  - unfold nonce. rewrite !length_app, Hs, be_bytes_length. reflexivity.
  - unfold nonce.
    replace ([0] ++ sender ++ [0; 0; 0; 0] ++ be_bytes 2 sequence_number)
      with (([0] ++ sender ++ [0; 0; 0; 0]) ++ be_bytes 2 sequence_number)
      by (now rewrite <- !app_assoc).
    rewrite skipn_app_exact by (rewrite !length_app, Hs; reflexivity).
    apply be_value_be_bytes. exact Hq.
  - exact E.
  - exact D.
  - rewrite <- E. now apply EncryptDataFrame_eq.
  - rewrite <- D. now apply DecryptDataFrame_eq.
Qed.

(** C1 (as amended): for a payload of at most 65535 bytes, a 16-byte key,
    6-byte addresses and a frame control with exactly one of to-DS and
    from-DS set, [EncryptDataFrame] returns the payload encrypted followed
    by an 8-byte tag and logs nothing, and [DecryptDataFrame] applied to
    that result with the same key, addresses, sequence number and frame
    control returns the payload. *)
Theorem DecryptDataFrame_EncryptDataFrame
  (payload ccmp_key sender receiver bssid : list Z)
  (sequence_number frame_control : Z) :
  size payload <= 65535 ->
  length ccmp_key = 16%nat ->
  length sender = 6%nat -> length receiver = 6%nat ->
  length bssid = 6%nat ->
  to_DS frame_control <> from_DS frame_control ->
  exists cipher,
    EncryptDataFrame payload ccmp_key sender receiver bssid sequence_number
                     frame_control = Ret (cipher, []) /\
    size cipher = size payload + 8 /\
    DecryptDataFrame cipher ccmp_key sender receiver bssid sequence_number
                     frame_control = Ret (payload, []).
Proof.
  intros Hp Hk Hs Hr Hb Hds.
  destruct (GenerateCCMPAAD_length sender receiver bssid frame_control
              Hs Hr Hb Hds) as (aad & Haad & Hlen).
  assert (Hn : length (EncryptDataFrame_nonce sender sequence_number)
               = 13%nat)
    by (unfold EncryptDataFrame_nonce; rewrite !length_app, Hs; reflexivity).
  assert (Ha : size aad < 2 ^ 64) by (unfold size; rewrite Hlen; lia).
  destruct (CCM_encrypt_accepts ccmp_key _ aad payload Hk Hn Ha Hp)
    as [cipher Henc].
  destruct (CCM_decrypt_encrypt _ _ _ _ _ Henc) as [Hsize Hdec].
  exists cipher. split; [| split].
  - rewrite (EncryptDataFrame_eq _ _ _ _ _ _ _ _ Haad). now rewrite Henc.
  - exact Hsize.
  - rewrite (DecryptDataFrame_eq _ _ _ _ _ _ _ _ Hs Haad).
    change (DecryptDataFrame_nonce sender sequence_number)
      with (EncryptDataFrame_nonce sender sequence_number).
    now rewrite Hdec.
Qed.

Lemma CCM_decrypt_truncated (ccmp_key nonce aad encrypted_payload : list Z) :
  size nonce = 13 -> size encrypted_payload < 8 ->
  exists e, CCM_decrypt ccmp_key nonce aad encrypted_payload = inl e.
Proof.
  intros Hn H8. unfold CCM_decrypt. rewrite Hn.
  destruct (CryptoPP.SetKeyWithIV _ _ _ _) as [e | d] eqn:E1;
    cbn [CryptoPP.bind]; [now exists e |].
  apply SetKeyWithIV_inr in E1 as (_ & _ & ->).
  unfold CryptoPP.SpecifyDataLengths.
  destruct (CryptoPP.MaxHeaderLength <? size aad);
    cbn [CryptoPP.bind]; [now eexists |].
  unfold CryptoPP.MaxMessageLength. cbn [CryptoPP.L].
  change (15 - 13 <? 8) with true. cbv iota.
  change (2 ^ (8 * (15 - 13)) - 1) with 65535.
  pose proof (size_nonneg encrypted_payload) as Hp.
  assert (E : size_t_sub (size encrypted_payload) 8
              = size encrypted_payload - 8 + 2 ^ 64)
    by (unfold size_t_sub; symmetry; apply Z.mod_unique with (q := -1); lia).
  rewrite E.
  destruct (Z.ltb_spec 65535 (size encrypted_payload - 8 + 2 ^ 64));
    [| lia].
  cbn [CryptoPP.bind]. now eexists.
Qed.

Lemma CCM_decrypt_tag_mismatch (ccmp_key nonce aad cipher mac : list Z) :
  size nonce = 13 -> length mac = 8%nat -> size (cipher ++ mac) < 2 ^ 64 ->
  mac <> CryptoPP.Tag
           {| CryptoPP.key := ccmp_key; CryptoPP.nonce := nonce;
              CryptoPP.L := 2; CryptoPP.aad_length := size aad;
              CryptoPP.message_length := size cipher |}
           aad
           (CryptoPP.Crypt
              {| CryptoPP.key := ccmp_key; CryptoPP.nonce := nonce;
                 CryptoPP.L := 2; CryptoPP.aad_length := size aad;
                 CryptoPP.message_length := size cipher |} cipher) ->
  exists e, CCM_decrypt ccmp_key nonce aad (cipher ++ mac) = inl e.
Proof.
  intros Hn Hm Hlt Hne. unfold CCM_decrypt. rewrite Hn.
  destruct (CryptoPP.SetKeyWithIV _ _ _ _) as [e | d] eqn:E1;
    cbn [CryptoPP.bind]; [now exists e |].
  apply SetKeyWithIV_inr in E1 as (_ & _ & ->).
  pose proof (size_nonneg cipher) as Hc.
  assert (Hsz : size (cipher ++ mac) = size cipher + 8)
    by (rewrite size_app; unfold size; rewrite Hm; lia).
  assert (E : size_t_sub (size (cipher ++ mac)) 8 = size cipher)
    by (unfold size_t_sub; rewrite Hsz, Z.mod_small; lia).
  rewrite E, Hsz.
  destruct (CryptoPP.SpecifyDataLengths _ _ _) as [e | d'] eqn:E2;
    cbn [CryptoPP.bind]; [now exists e |].
  apply SpecifyDataLengths_inr in E2 as [_ ->].
  cbn [CryptoPP.key CryptoPP.nonce CryptoPP.L].
  change (15 - 13) with 2.
  replace (size cipher + 8 - 8) with (size cipher) by lia.
  replace (Z.to_nat (size cipher)) with (length cipher)
    by (unfold size; now rewrite Nat2Z.id).
  rewrite (firstn_app_exact _ cipher mac eq_refl),
    (skipn_app_exact _ cipher mac eq_refl).
  rewrite firstn_all2 by lia.
  unfold CryptoPP.AuthenticatedDecryptionFilter.
  destruct (CryptoPP.LengthsMatch _ _ _); [| now eexists].
  rewrite bytes_eqb_false by congruence. now eexists.
Qed.

(** C7: no failure leaves [EncryptDataFrame] or [DecryptDataFrame].  When
    Crypto++ throws in [EncryptDataFrame], the function logs "failed to
    encrypt" and returns an empty vector; when it throws in
    [DecryptDataFrame] (in particular on a payload of fewer than 8 bytes,
    and on a payload whose last 8 bytes are not the tag of the rest under
    the AAD), the function logs "failed to decrypt" and returns an empty
    vector. *)
Theorem crypto_failures_are_logged
  (data ccmp_key sender receiver bssid : list Z)
  (sequence_number frame_control : Z) :
  (forall f,
     EncryptDataFrame data ccmp_key sender receiver bssid sequence_number
                      frame_control <> Fail f) /\
  (forall f,
     DecryptDataFrame data ccmp_key sender receiver bssid sequence_number
                      frame_control <> Fail f) /\
  (forall aad,
     GenerateCCMPAAD sender receiver bssid frame_control = Ret aad ->
     (forall e,
        CCM_encrypt ccmp_key (EncryptDataFrame_nonce sender sequence_number)
                    aad data = inl e ->
        EncryptDataFrame data ccmp_key sender receiver bssid sequence_number
                         frame_control = Ret ([], [failed_to_encrypt])) /\
     (length sender = 6%nat ->
      (forall e,
         CCM_decrypt ccmp_key (DecryptDataFrame_nonce sender sequence_number)
                     aad data = inl e ->
         DecryptDataFrame data ccmp_key sender receiver bssid
                          sequence_number frame_control
         = Ret ([], [failed_to_decrypt])) /\
      (size data < 8 ->
       DecryptDataFrame data ccmp_key sender receiver bssid
                        sequence_number frame_control
       = Ret ([], [failed_to_decrypt])) /\
      (forall cipher mac,
         data = cipher ++ mac -> length mac = 8%nat -> size data < 2 ^ 64 ->
         let d := {| CryptoPP.key := ccmp_key;
                     CryptoPP.nonce :=
                       DecryptDataFrame_nonce sender sequence_number;
                     CryptoPP.L := 2;
                     CryptoPP.aad_length := size aad;
                     CryptoPP.message_length := size cipher |} in
         mac <> CryptoPP.Tag d aad (CryptoPP.Crypt d cipher) ->
         DecryptDataFrame data ccmp_key sender receiver bssid
                          sequence_number frame_control
         = Ret ([], [failed_to_decrypt])))).
Proof.
  split; [| split].
  - intros f. apply EncryptDataFrame_not_Fail.
  - intros f. apply DecryptDataFrame_not_Fail.
  - intros aad Haad. split.
    + intros e He. rewrite (EncryptDataFrame_eq _ _ _ _ _ _ _ _ Haad).
      now rewrite He.
    + intros Hs.
      pose proof (nonce_size sender sequence_number Hs) as Hn.
      rewrite (DecryptDataFrame_eq _ _ _ _ _ _ _ _ Hs Haad).
      split; [| split].
      * intros e He. now rewrite He.
      * intros H8.
        destruct (CCM_decrypt_truncated ccmp_key _ aad data Hn H8)
          as [e He].
        now rewrite He.
      * intros cipher mac -> Hm Hlt d Hne.
        destruct (CCM_decrypt_tag_mismatch ccmp_key _ aad cipher mac
                    Hn Hm Hlt Hne) as [e He].
        now rewrite He.
Qed.

(** ** Key derivation *)

Lemma le_bytes_length (n : nat) (v : Z) : length (le_bytes n v) = n.
Proof.
  revert v; induction n as [|n IH]; intros v; simpl;
    [reflexivity | now rewrite IH].
Qed.

Lemma le_bytes_u8 (n : nat) (v : Z) : Forall is_u8 (le_bytes n v).
Proof.
  revert v; induction n as [|n IH]; intros v; simpl; constructor.
  - unfold is_u8. apply Z.mod_pos_bound. lia.
  - apply IH.
Qed.

Lemma CalculateDigest_length (msg : list Z) :
  length (MD5.CalculateDigest msg) = 16%nat.
Proof.
  unfold MD5.CalculateDigest.
  destruct (fold_left _ _ _) as [[[a b] c] d].
  now rewrite !length_app, !le_bytes_length.
Qed.

Lemma CalculateDigest_u8 (msg : list Z) :
  Forall is_u8 (MD5.CalculateDigest msg).
Proof.
  unfold MD5.CalculateDigest.
  destruct (fold_left _ _ _) as [[[a b] c] d].
  repeat (apply Forall_app; split); apply le_bytes_u8.
Qed.

Lemma be_bytes_low (n : nat) (x r : Z) :
  be_bytes n (x * 256 ^ Z.of_nat n + r) = be_bytes n r.
Proof.
  revert x; induction n as [|n IH]; intros x; [reflexivity |].
  cbn [be_bytes]. f_equal.
  - rewrite Nat2Z.inj_succ, Z.pow_succ_r by lia.
    replace (x * (256 * 256 ^ Z.of_nat n) + r)
      with (x * 256 * 256 ^ Z.of_nat n + r) by ring.
    rewrite Z.div_add_l by (apply Z.pow_nonzero; lia).
    rewrite Z.add_comm. apply Z.mod_add. lia.
  - rewrite Nat2Z.inj_succ, Z.pow_succ_r by lia.
    replace (x * (256 * 256 ^ Z.of_nat n) + r)
      with (x * 256 * 256 ^ Z.of_nat n + r) by ring.
    apply IH.
Qed.

Lemma be_value_cons (x : Z) (l : list Z) :
  be_value (x :: l) = x * 256 ^ Z.of_nat (length l) + be_value l.
Proof.
  unfold be_value. cbn [fold_left].
  assert (H : forall acc,
            fold_left (fun a b => a * 256 + b) l acc
            = acc * 256 ^ Z.of_nat (length l)
              + fold_left (fun a b => a * 256 + b) l 0).
  { induction l as [|y l IH]; intros acc.
    - cbn. lia.
    - cbn [fold_left length]. rewrite IH, (IH (0 * 256 + y)).
      rewrite Nat2Z.inj_succ, Z.pow_succ_r by lia. ring. }
  rewrite H. ring.
Qed.

Lemma be_value_bound (l : list Z) :
  Forall is_u8 l -> 0 <= be_value l < 256 ^ Z.of_nat (length l).
Proof.
  induction 1 as [|x l Hx Hl IH]; [cbn; lia |].
  rewrite be_value_cons. cbn [length].
  rewrite Nat2Z.inj_succ, Z.pow_succ_r by lia.
  unfold is_u8 in Hx. nia.
Qed.

Lemma be_bytes_be_value (l : list Z) :
  Forall is_u8 l -> be_bytes (length l) (be_value l) = l.
Proof.
  induction 1 as [|x l Hx Hl IH]; [reflexivity |].
  rewrite be_value_cons. cbn [length be_bytes].
  pose proof (be_value_bound l Hl) as Hb. unfold is_u8 in Hx.
  f_equal.
  - rewrite Z.div_add_l by (apply Z.pow_nonzero; lia).
    rewrite Z.div_small by lia. rewrite Z.add_0_r. apply Z.mod_small. lia.
  - rewrite be_bytes_low. exact IH.
Qed.

(** The counter block number 0 is the initialisation vector itself. *)
Lemma CounterBlock_0 (iv : list Z) :
  length iv = 16%nat -> Forall is_u8 iv -> CryptoPP.CounterBlock iv 0 = iv.
Proof.
  intros Hlen Hiv. unfold CryptoPP.CounterBlock.
  pose proof (be_value_bound iv Hiv) as Hb. rewrite Hlen in Hb.
  change (256 ^ Z.of_nat 16) with (2 ^ 128) in Hb.
  rewrite Z.add_0_r, Z.mod_small by lia.
  rewrite <- Hlen. apply be_bytes_be_value. exact Hiv.
Qed.

Lemma KeystreamByte_first (key iv : list Z) (j : nat) :
  (j < 16)%nat ->
  CryptoPP.KeystreamByte key iv 0 j
  = nth j (AES.ProcessBlock key (CryptoPP.CounterBlock iv 0)) 0.
Proof.
  intros Hj. unfold CryptoPP.KeystreamByte.
  now rewrite Nat.mod_small, Nat.div_small by lia.
Qed.

(** One block in counter mode: the data xored with the encrypted
    counter. *)
Lemma CTR_ProcessData_one_block (key iv data : list Z) :
  length data = 16%nat ->
  CryptoPP.CTR_ProcessData key iv 0 data
  = xor_bytes 16 data (AES.ProcessBlock key (CryptoPP.CounterBlock iv 0)).
Proof.
  intros H.
  do 17 (destruct data as [|? data]; try discriminate).
  unfold CryptoPP.CTR_ProcessData, xor_bytes.
  cbn [length seq combine map fst snd nth].
  rewrite !KeystreamByte_first by lia. reflexivity.
Qed.

Section KeyDerivation.

Context {CTR_members : DataFrameCryptoCTR_members}.
Context {Keys : KeyStorage}.

(** C4: the CCMP key is 16 bytes, the AES-CTR encryption of the MD5 digest
    of the passphrase under the normal key of key slot 0x2D (UDSDataKey),
    the initial counter block being the MD5 digest of host MAC address,
    wireless community id, instantiation id and network id, one after the
    other; for this single block, it is the digest of the passphrase xored
    with the encryption of that counter block. *)
Theorem GenerateDataCCMPKey_derivation (passphrase : list Z)
  (network_info : NetworkInfo.t) :
  let counter :=
    MD5.CalculateDigest
      (NetworkInfo.host_mac_address network_info
       ++ wlan_comm_id_bytes (NetworkInfo.wlan_comm_id network_info)
       ++ id_bytes (NetworkInfo.id network_info)
       ++ network_id_bytes (NetworkInfo.network_id network_info)) in
  let normal_key := GetNormalKey UDSDataKey in
  GetDataCryptoCTR network_info = counter /\
  length counter = 16%nat /\
  GenerateDataCCMPKey passphrase network_info
  = CryptoPP.CTR_ProcessData normal_key counter 0
      (MD5.CalculateDigest passphrase) /\
  GenerateDataCCMPKey passphrase network_info
  = xor_bytes 16 (MD5.CalculateDigest passphrase)
      (AES.ProcessBlock normal_key counter) /\
  length (GenerateDataCCMPKey passphrase network_info) = 16%nat.
Proof.
  intros counter normal_key.
  assert (Hc : GetDataCryptoCTR network_info = counter) by reflexivity.
  assert (Hk : GenerateDataCCMPKey passphrase network_info
               = CryptoPP.CTR_ProcessData normal_key counter 0
                   (MD5.CalculateDigest passphrase)) by reflexivity.
  assert (Hx : GenerateDataCCMPKey passphrase network_info
               = xor_bytes 16 (MD5.CalculateDigest passphrase)
                   (AES.ProcessBlock normal_key counter)).
  { rewrite Hk, CTR_ProcessData_one_block by apply CalculateDigest_length.
    rewrite CounterBlock_0; [reflexivity | |]; unfold counter.
    - apply CalculateDigest_length.
    - apply CalculateDigest_u8. }
  repeat split; try assumption.
  - apply CalculateDigest_length.
  - rewrite Hx. apply xor_bytes_length.
Qed.

End KeyDerivation.

(** ** Test vectors of the primitives *)

(** FIPS 197, appendix C.1. *)
Example AES_FIPS197_C1 :
  AES.ProcessBlock
    [0; 1; 2; 3; 4; 5; 6; 7; 8; 9; 10; 11; 12; 13; 14; 15]
    [0; 17; 34; 51; 68; 85; 102; 119; 136; 153; 170; 187; 204; 221; 238; 255]
  = [105; 196; 224; 216; 106; 123; 4; 48;
     216; 205; 183; 128; 112; 180; 197; 90].
Proof. vm_compute. reflexivity. Qed.

(** RFC 1321, appendix A.5: the digests of the empty string and of
    "abc". *)
Example MD5_RFC1321_A5 :
  MD5.CalculateDigest []
  = [212; 29; 140; 217; 143; 0; 178; 4; 233; 128; 9; 152; 236; 248; 66; 126]
  /\ MD5.CalculateDigest [97; 98; 99]
     = [144; 1; 80; 152; 60; 210; 79; 176;
        214; 150; 63; 125; 40; 225; 127; 114].
Proof. split; vm_compute; reflexivity. Qed.

(** RFC 3610, packet vector 1: a 13-byte nonce, 8 bytes of authenticated
    data, 23 bytes of payload and a tag of 8 bytes. *)
Example CCM_RFC3610_vector_1 :
  CCM_encrypt SampleLayout.ccmp_key
    [0; 0; 0; 3; 2; 1; 0; 160; 161; 162; 163; 164; 165]
    [0; 1; 2; 3; 4; 5; 6; 7]
    [8; 9; 10; 11; 12; 13; 14; 15; 16; 17; 18; 19; 20; 21; 22; 23; 24; 25;
     26; 27; 28; 29; 30]
  = inr [88; 140; 151; 154; 97; 198; 99; 210; 240; 102; 208; 194; 192; 249;
         137; 128; 109; 95; 107; 97; 218; 195; 132;
         23; 232; 209; 44; 253; 249; 38; 224].
Proof. vm_compute. reflexivity. Qed.

(** The data frame of the sample below: the bytes that AES-128-CCM gives
    for this key, nonce, AAD and payload. *)
Example EncryptDataFrame_sample_frame :
  EncryptDataFrame [99; 105; 116; 114; 97] SampleLayout.ccmp_key
                   SampleLayout.sender SampleLayout.receiver
                   SampleLayout.bssid 5 2
  = Ret ([108; 152; 84; 248; 86; 163; 171; 156; 252; 143; 66; 123; 145], []).
Proof. vm_compute. reflexivity. Qed.

(** ** The functions on sample frames *)

Section SampleFrames.

#[local] Existing Instance SampleLayout.EtherTypes.
#[local] Existing Instance SampleLayout.LLCHeader_rep.
#[local] Existing Instance SampleLayout.SecureDataHeader_rep.
#[local] Existing Instance SampleLayout.Usernames.
#[local] Existing Instance SampleLayout.EAPoLStartPacket_rep.
#[local] Existing Instance SampleLayout.CTR_members.
#[local] Existing Instance SampleLayout.Keys.

Import SampleLayout.

(** A payload of 5 bytes, sent from the distribution system (from-DS),
    comes back from [DecryptDataFrame]. *)
Lemma DecryptDataFrame_EncryptDataFrame_sample :
  exists cipher,
    EncryptDataFrame [99; 105; 116; 114; 97] ccmp_key sender receiver bssid
                     5 2 = Ret (cipher, []) /\
    size cipher = size [99; 105; 116; 114; 97] + 8 /\
    DecryptDataFrame cipher ccmp_key sender receiver bssid 5 2
    = Ret ([99; 105; 116; 114; 97], []).
Proof.
  apply DecryptDataFrame_EncryptDataFrame;
    try reflexivity; vm_compute; discriminate.
Defined.

(** A payload of 65536 bytes: Crypto++ refuses the length, nothing is
    encrypted, and decrypting what [EncryptDataFrame] returned does not give
    the payload back. *)
Lemma EncryptDataFrame_65536_bytes :
  let payload := repeat 0 (Z.to_nat 65536) in
  EncryptDataFrame payload ccmp_key sender receiver bssid 5 2
  = Ret ([], [failed_to_encrypt]) /\
  DecryptDataFrame [] ccmp_key sender receiver bssid 5 2
  = Ret ([], [failed_to_decrypt]) /\
  [] <> payload.
Proof.
  intros payload. split; [| split].
  - vm_compute. reflexivity.
  - vm_compute. reflexivity.
  - intros H. apply (f_equal size) in H. vm_compute in H. discriminate.
Qed.

(** A payload of 3 bytes in a data frame. *)
Lemma ParseSecureDataHeader_GenerateDataPayload_sample :
  ParseSecureDataHeader (GenerateDataPayload [1; 2; 3] 1 2 3 5)
  = Ret {| protocol_size := 15; securedata_size := 11; is_management := 0;
           data_channel := 1; sequence_number := 5; dest_node_id := 2;
           src_node_id := 3 |}.
Proof.
  refine (ParseSecureDataHeader_GenerateDataPayload [1; 2; 3] 1 2 3 5
            _ _ _ _ _ _);
    vm_compute; intuition discriminate.
Defined.

(** A payload of 65535 bytes, the largest length that a [u16] holds: the
    size members of the header wrap around. *)
Lemma GenerateDataPayload_65535_bytes :
  let payload := repeat 0 (Z.to_nat 65535) in
  size payload = 65535 /\
  ParseSecureDataHeader (GenerateDataPayload payload 1 2 3 5)
  = Ret {| protocol_size := 11; securedata_size := 7; is_management := 0;
           data_channel := 1; sequence_number := 5; dest_node_id := 2;
           src_node_id := 3 |} /\
  11 <> size payload + sizeof_SecureDataHeader.
Proof.
  intros payload. split; [| split].
  - vm_compute. reflexivity.
  - vm_compute. reflexivity.
  - vm_compute. discriminate.
Qed.



(** A payload of 300 bytes. *)
Lemma GenerateDataPayload_rejects_no_size_sample :
  exists header,
    ParseSecureDataHeader (GenerateDataPayload (repeat 7 300) 1 2 3 5)
    = Ret header /\
    protocol_size header = (size (repeat 7 300) + sizeof_SecureDataHeader)
                           mod 65536 /\
    securedata_size header
    = (size (repeat 7 300) + sizeof_SecureDataHeader - 4) mod 65536.
Proof.
  apply (GenerateDataPayload_rejects_no_size (repeat 7 300) 1 2 3 5);
    vm_compute; intuition discriminate.
Defined.

(** A payload of 65536 bytes is not rejected: the frame is built, with
    the size members of an empty payload. *)
Lemma GenerateDataPayload_65536_bytes :
  let payload := repeat 0 (Z.to_nat 65536) in
  let frame := GenerateDataPayload payload 1 2 3 5 in
  65535 < size payload /\
  size frame = 8 + 12 + 65536 /\
  firstn 20 frame
  = [170; 170; 3; 0; 0; 0; 135; 109]
    ++ [0; 12; 0; 8; 0; 1; 0; 5; 0; 2; 0; 3] /\
  skipn 20 frame = payload.
Proof.
  intros payload frame. split; [| split; [| split]].
  - vm_compute. reflexivity.
  - vm_compute. reflexivity.
  - vm_compute. reflexivity.
  - unfold frame, GenerateDataPayload. rewrite <- app_assoc.
    rewrite app_assoc. apply skipn_app_exact. reflexivity.
Qed.

(** The key derived from the passphrase 01 02 03 on the sample network:
    the bytes that MD5 and AES-128-CTR give for these inputs. *)
Example GenerateDataCCMPKey_sample_key :
  GenerateDataCCMPKey [1; 2; 3] network_info
  = [246; 223; 26; 5; 248; 92; 118; 193;
     230; 224; 66; 151; 107; 22; 135; 206].
Proof. vm_compute. reflexivity. Qed.


(** The AAD of a frame sent from the distribution system, with every bit of
    the frame control set but to-DS: the masked bits are dropped and the
    first two entries are the bytes 0x8F and 0xC6. *)
Lemma GenerateCCMPAAD_bytes_sample :
  exists aad,
    GenerateCCMPAAD sender receiver bssid 65534 = Ret aad /\
    length aad = 22%nat /\
    aad = [143; 198] ++ (receiver ++ bssid ++ sender) ++ [0; 0] /\
    firstn 2 aad = be_bytes 2 (Z.land 65534 36807) /\
    Forall is_u8 (firstn 2 aad) /\
    be_value (firstn 2 aad) = Z.land 65534 36807 /\
    firstn 18 (skipn 2 aad) = receiver ++ bssid ++ sender /\
    skipn 20 aad = [0; 0].
Proof.
  refine (GenerateCCMPAAD_bytes sender receiver bssid 65534 _ _ _ _);
    try reflexivity.
  vm_compute. discriminate.
Defined.

(** Both addressing bits set. *)
Lemma GenerateCCMPAAD_addressing_mode_sample :
  GenerateCCMPAAD sender receiver bssid 3 = Abort /\
  EncryptDataFrame [1] ccmp_key sender receiver bssid 5 3 = Abort /\
  DecryptDataFrame [1] ccmp_key sender receiver bssid 5 3 = Abort.
Proof.
  destruct (GenerateCCMPAAD_addressing_mode sender receiver bssid 3)
    as (H1 & _ & H3).
  split; [apply H1; reflexivity | apply H3; reflexivity].
Defined.

(** The nonce for sequence number 0x1234. *)
Lemma CCM_nonce_bytes_sample :
  EncryptDataFrame_nonce sender 4660
  = [0; 2; 0; 0; 0; 0; 1; 0; 0; 0; 0; 18; 52] /\
  DecryptDataFrame_nonce sender 4660
  = [0; 2; 0; 0; 0; 0; 1; 0; 0; 0; 0; 18; 52].
Proof.
  assert (Hq : is_u16 4660) by (unfold is_u16; lia).
  destruct (CCM_nonce_bytes sender 4660 eq_refl Hq)
    as (_ & _ & E & D & _).
  exact (conj E D).
Defined.

(** A payload of 3 bytes cannot hold a tag. *)
Lemma crypto_failures_are_logged_sample :
  DecryptDataFrame [1; 2; 3] ccmp_key sender receiver bssid 5 2
  = Ret ([], [failed_to_decrypt]).
Proof.
  destruct (crypto_failures_are_logged [1; 2; 3] ccmp_key sender receiver
              bssid 5 2) as (_ & _ & H).
  assert (Hds : to_DS 2 <> from_DS 2) by (vm_compute; discriminate).
  destruct (H _ (GenerateCCMPAAD_Ret sender receiver bssid 2 Hds))
    as [_ H'].
  destruct (H' eq_refl) as (_ & Htruncated & _).
  apply Htruncated. reflexivity.
Defined.

End SampleFrames.

(** * Further properties *)

(** ** The EAPoL-Logoff frame *)

Lemma firstn_S_nth_error {A : Type} (l : list A) (k : nat) (x : A) :
  nth_error l k = Some x -> firstn (S k) l = firstn k l ++ [x].
Proof.
  revert k; induction l as [|y l IH]; intros [|k] H; try discriminate.
  - injection H as ->. reflexivity.
  - cbn [firstn app]. f_equal. apply IH. exact H.
Qed.

Lemma fold_left_Undefined {A B : Type}
  (f : outcome A -> B -> outcome A) (l : list B) :
  (forall b, f Undefined b = Undefined) ->
  fold_left f l Undefined = Undefined.
Proof.
  intros Hf. induction l as [|b l IH]; [reflexivity |].
  cbn [fold_left]. now rewrite Hf.
Qed.

Section Logoff.

Context {EtherTypes : EtherType_enum}.
Context {LLCHeader_rep : ObjRep LLCHeader_wf}.
Context {Usernames : UsernameBuffer}.
Context {Nodes : LogoffNodes}.
Context {EAPoLLogoffPacket_rep : ObjRep EAPoLLogoffPacket_wf}.

(** The loop after [k] rounds: the first [k] nodes are written, the others
    are as they were. *)
Lemma GenerateEAPoLLogoffFrame_loop (nodes : list NodeInfo.t)
  (a c m : Z) (k : nat) :
  (k <= length nodes)%nat -> (k <= nodes_size)%nat ->
  fold_left (GenerateEAPoLLogoffFrame_body nodes) (seq 0 k)
    (Ret {| EAPoLLogoffPacket.assigned_node_id := a;
            EAPoLLogoffPacket.connected_nodes := c;
            EAPoLLogoffPacket.max_nodes := m;
            EAPoLLogoffPacket.nodes := repeat EAPoLNodeInfo_zero nodes_size |})
  = Ret {| EAPoLLogoffPacket.assigned_node_id := a;
           EAPoLLogoffPacket.connected_nodes := c;
           EAPoLLogoffPacket.max_nodes := m;
           EAPoLLogoffPacket.nodes :=
             map EAPoLNodeInfo_of (firstn k nodes)
             ++ repeat EAPoLNodeInfo_zero (nodes_size - k) |}.
Proof.
  induction k as [|k IH]; intros Hk HN.
  - cbn [seq fold_left firstn map app]. now rewrite Nat.sub_0_r.
  - rewrite seq_S, fold_left_app, IH by lia.
    cbn [fold_left Nat.add]. unfold GenerateEAPoLLogoffFrame_body.
    cbn [bind EAPoLLogoffPacket.nodes EAPoLLogoffPacket.assigned_node_id
         EAPoLLogoffPacket.connected_nodes EAPoLLogoffPacket.max_nodes].
    destruct (nth_error nodes k) as [x |] eqn:Ex;
      [| apply nth_error_None in Ex; lia].
    assert (Hlen : length (map EAPoLNodeInfo_of (firstn k nodes)) = k)
      by (rewrite length_map, length_firstn; lia).
    unfold at_index. rewrite Ex. cbn [bind].
    rewrite nth_error_app2 by lia. rewrite Hlen, Nat.sub_diag.
    destruct (nodes_size - k)%nat as [|r] eqn:Er; [lia |].
    cbn [repeat nth_error bind]. unfold array_set.
    rewrite (firstn_app_exact k _ _ Hlen).
    assert (Hskip : skipn (S k)
                      (map EAPoLNodeInfo_of (firstn k nodes)
                       ++ EAPoLNodeInfo_zero :: repeat EAPoLNodeInfo_zero r)
                    = repeat EAPoLNodeInfo_zero r).
    { change (S k) with (1 + k)%nat.
      rewrite <- skipn_skipn, (skipn_app_exact k _ _ Hlen). reflexivity. }
    rewrite Hskip, (firstn_S_nth_error nodes k x Ex), map_app, <- app_assoc.
    cbn [map app]. replace (nodes_size - S k)%nat with r by lia.
    reflexivity.
Qed.

(** The loop runs off the end of [nodes] or of the array of the packet
    when [k] is larger than one of them. *)
Lemma GenerateEAPoLLogoffFrame_loop_out (nodes : list NodeInfo.t)
  (a c m : Z) (k : nat) :
  (length nodes < k)%nat \/ (nodes_size < k)%nat ->
  fold_left (GenerateEAPoLLogoffFrame_body nodes) (seq 0 k)
    (Ret {| EAPoLLogoffPacket.assigned_node_id := a;
            EAPoLLogoffPacket.connected_nodes := c;
            EAPoLLogoffPacket.max_nodes := m;
            EAPoLLogoffPacket.nodes := repeat EAPoLNodeInfo_zero nodes_size |})
  = Undefined.
Proof.
  intros Hk.
  set (b := Nat.min (length nodes) nodes_size).
  replace k with (S b + (k - S b))%nat by lia.
  rewrite seq_app, fold_left_app, seq_S, fold_left_app.
  rewrite GenerateEAPoLLogoffFrame_loop by lia.
  cbn [fold_left Nat.add].
  assert (E : GenerateEAPoLLogoffFrame_body nodes
                (Ret {| EAPoLLogoffPacket.assigned_node_id := a;
                        EAPoLLogoffPacket.connected_nodes := c;
                        EAPoLLogoffPacket.max_nodes := m;
                        EAPoLLogoffPacket.nodes :=
                          map EAPoLNodeInfo_of (firstn b nodes)
                          ++ repeat EAPoLNodeInfo_zero (nodes_size - b) |})
                b = Undefined).
  { unfold GenerateEAPoLLogoffFrame_body, at_index.
    cbn [bind EAPoLLogoffPacket.nodes].
    destruct (nth_error nodes b) as [x |] eqn:Ex; [| reflexivity].
    cbn [bind].
    assert (Hb : (b < length nodes)%nat)
      by (apply nth_error_Some; congruence).
    replace (nodes_size - b)%nat with 0%nat by lia.
    cbn [repeat]. rewrite app_nil_r.
    replace (nth_error (map EAPoLNodeInfo_of (firstn b nodes)) b)
      with (@None EAPoLNodeInfo.t); [reflexivity |].
    symmetry. apply nth_error_None.
    rewrite length_map, length_firstn. lia. }
  rewrite E. apply fold_left_Undefined. reflexivity.
Qed.

Lemma EAPoLNodeInfo_of_wf (n : NodeInfo.t) :
  NodeInfo_wf n -> EAPoLNodeInfo_wf (EAPoLNodeInfo_of n).
Proof.
  intros (Hseed & Hlen & Hname & Hid).
  unfold EAPoLNodeInfo_wf, EAPoLNodeInfo_of.
  cbn [EAPoLNodeInfo.friend_code_seed EAPoLNodeInfo.username
       EAPoLNodeInfo.network_node_id].
  rewrite std_copy_whole by (now rewrite repeat_length).
  exact (conj Hseed (conj Hlen (conj Hname Hid))).
Qed.

Lemma EAPoLNodeInfo_zero_wf : EAPoLNodeInfo_wf EAPoLNodeInfo_zero.
Proof.
  unfold EAPoLNodeInfo_wf, EAPoLNodeInfo_zero, is_u64, is_u16.
  cbn [EAPoLNodeInfo.friend_code_seed EAPoLNodeInfo.username
       EAPoLNodeInfo.network_node_id].
  rewrite repeat_length. repeat split; try lia.
  apply Forall_forall. intros x Hx. apply repeat_spec in Hx. subst. lia.
Qed.

Lemma DeserializeNodeInfo_EAPoLNodeInfo_of (n : NodeInfo.t) :
  length (NodeInfo.username n) = username_size ->
  DeserializeNodeInfo (EAPoLNodeInfo_of n) = n.
Proof.
  intros Hlen. destruct n as [seed name nid].
  unfold DeserializeNodeInfo, EAPoLNodeInfo_of.
  cbn [EAPoLNodeInfo.friend_code_seed EAPoLNodeInfo.username
       EAPoLNodeInfo.network_node_id NodeInfo.friend_code_seed
       NodeInfo.username NodeInfo.network_node_id] in *.
  assert (E : std_copy name (repeat 0 username_size) = name)
    by (apply std_copy_whole; now rewrite repeat_length).
  now rewrite !E.
Qed.

(** X1: an EAPoL-Logoff frame parses back to what was put in it.  For
    [max_nodes] no larger than the list of nodes and than the array of the
    packet, [ParseEAPoLLogoffFrame] of the frame that
    [GenerateEAPoLLogoffFrame] returns has the assigned node id, the number
    of connected nodes and [max_nodes] that were given; its first
    [max_nodes] nodes turn back, by [DeserializeNodeInfo], into the first
    [max_nodes] nodes of the list, network node id included, and its other
    nodes are zero.  The MAC address and the relation between
    [total_nodes] and [max_nodes] play no part. *)
Theorem ParseEAPoLLogoffFrame_GenerateEAPoLLogoffFrame
  (mac_address : list Z) (network_node_id : Z) (nodes : list NodeInfo.t)
  (max_nodes total_nodes : Z) :
  is_u16 network_node_id -> is_u8 max_nodes -> is_u8 total_nodes ->
  (Z.to_nat max_nodes <= length nodes)%nat ->
  (Z.to_nat max_nodes <= nodes_size)%nat ->
  Forall NodeInfo_wf (firstn (Z.to_nat max_nodes) nodes) ->
  exists frame packet,
    GenerateEAPoLLogoffFrame mac_address network_node_id nodes max_nodes
                             total_nodes = Ret frame /\
    ParseEAPoLLogoffFrame frame = Ret packet /\
    EAPoLLogoffPacket.assigned_node_id packet = network_node_id /\
    EAPoLLogoffPacket.connected_nodes packet = total_nodes /\
    EAPoLLogoffPacket.max_nodes packet = max_nodes /\
    map DeserializeNodeInfo
        (firstn (Z.to_nat max_nodes) (EAPoLLogoffPacket.nodes packet))
    = firstn (Z.to_nat max_nodes) nodes /\
    skipn (Z.to_nat max_nodes) (EAPoLLogoffPacket.nodes packet)
    = repeat EAPoLNodeInfo_zero (nodes_size - Z.to_nat max_nodes).
Proof.
  intros Hid Hmax Htotal Hk HN Hwf.
  set (k := Z.to_nat max_nodes) in *.
  set (written := map EAPoLNodeInfo_of (firstn k nodes)).
  set (packet :=
         {| EAPoLLogoffPacket.assigned_node_id := network_node_id;
            EAPoLLogoffPacket.connected_nodes := total_nodes;
            EAPoLLogoffPacket.max_nodes := max_nodes;
            EAPoLLogoffPacket.nodes :=
              written ++ repeat EAPoLNodeInfo_zero (nodes_size - k) |}).
  assert (Hlen : length written = k)
    by (unfold written; rewrite length_map, length_firstn; lia).
  exists (GenerateLLCHeader EAPoL ++ to_bytes packet), packet.
  split; [| split].
  - unfold GenerateEAPoLLogoffFrame. fold EAPoLNodeInfo_zero. fold k.
    now rewrite GenerateEAPoLLogoffFrame_loop by assumption.
  - unfold ParseEAPoLLogoffFrame.
    rewrite <- (app_nil_r (to_bytes packet)).
    unfold GenerateLLCHeader, sizeof_LLCHeader, sizeof_EAPoLLogoffPacket.
    rewrite <- (to_bytes_size {| protocol := EAPoL |}).
    rewrite <- (to_bytes_size packet).
    rewrite memcpy_from_middle. cbn [bind]. rewrite of_to_bytes;
      [reflexivity |].
    unfold EAPoLLogoffPacket_wf, packet.
    cbn [EAPoLLogoffPacket.assigned_node_id EAPoLLogoffPacket.connected_nodes
         EAPoLLogoffPacket.max_nodes EAPoLLogoffPacket.nodes].
    repeat split; try (unfold is_u16, is_u8 in *; lia).
    + rewrite length_app, Hlen, repeat_length. lia.
    + apply Forall_app. split.
      * unfold written. apply Forall_map.
        eapply Forall_impl; [| exact Hwf].
        intros n Hn. now apply EAPoLNodeInfo_of_wf.
      * apply Forall_forall. intros x Hx. apply repeat_spec in Hx. subst.
        apply EAPoLNodeInfo_zero_wf.
  - cbn [packet EAPoLLogoffPacket.assigned_node_id
         EAPoLLogoffPacket.connected_nodes EAPoLLogoffPacket.max_nodes
         EAPoLLogoffPacket.nodes].
    repeat split.
    + rewrite (firstn_app_exact k _ _ Hlen). unfold written.
      rewrite map_map.
      rewrite <- (map_id (firstn k nodes)) at 2.
      apply map_ext_in. intros n Hn.
      apply DeserializeNodeInfo_EAPoLNodeInfo_of.
      rewrite Forall_forall in Hwf. now destruct (Hwf n Hn) as (_ & H & _).
    + apply (skipn_app_exact k _ _ Hlen).
Qed.

(** X2: [GenerateEAPoLLogoffFrame] checks [max_nodes] against nothing.  When
    [max_nodes] is no larger than the list of nodes and than the array of
    the packet it returns a frame of sizeof(LLCHeader) +
    sizeof(EAPoLLogoffPacket) bytes; when it is larger than either, the loop
    indexes past the end. *)
Theorem GenerateEAPoLLogoffFrame_bounds
  (mac_address : list Z) (network_node_id : Z) (nodes : list NodeInfo.t)
  (max_nodes total_nodes : Z) :
  ((Z.to_nat max_nodes <= length nodes)%nat ->
   (Z.to_nat max_nodes <= nodes_size)%nat ->
   exists frame,
     GenerateEAPoLLogoffFrame mac_address network_node_id nodes max_nodes
                              total_nodes = Ret frame /\
     size frame = sizeof_LLCHeader + sizeof_EAPoLLogoffPacket) /\
  ((length nodes < Z.to_nat max_nodes)%nat \/
   (nodes_size < Z.to_nat max_nodes)%nat ->
   GenerateEAPoLLogoffFrame mac_address network_node_id nodes max_nodes
                            total_nodes = Undefined).
Proof.
  split.
  - intros Hk HN. unfold GenerateEAPoLLogoffFrame. fold EAPoLNodeInfo_zero.
    rewrite GenerateEAPoLLogoffFrame_loop by assumption. cbn [bind].
    eexists. split; [reflexivity |].
    rewrite size_app. unfold GenerateLLCHeader, sizeof_LLCHeader,
      sizeof_EAPoLLogoffPacket.
    now rewrite !to_bytes_size.
  - intros Hk. unfold GenerateEAPoLLogoffFrame. fold EAPoLNodeInfo_zero.
    now rewrite GenerateEAPoLLogoffFrame_loop_out by assumption.
Qed.

End Logoff.

(** ** Frames and what the parsers make of them *)

Lemma memcpy_from_head (a c : list Z) :
  memcpy_from (a ++ c) 0 (size a) = Ret a.
Proof.
  change (a ++ c) with ([] ++ a ++ c).
  change 0 with (size (@nil Z)) at 1. apply memcpy_from_middle.
Qed.

Section GeneratedFrames.

Context {EtherTypes : EtherType_enum}.
Context {LLCHeader_rep : ObjRep LLCHeader_wf}.
Context {SecureDataHeader_rep : ObjRep SecureDataHeader_wf}.
Context {Usernames : UsernameBuffer}.
Context {EAPoLStartPacket_rep : ObjRep EAPoLStartPacket_wf}.
Context {Nodes : LogoffNodes}.
Context {EAPoLLogoffPacket_rep : ObjRep EAPoLLogoffPacket_wf}.

Lemma GetFrameEtherType_GenerateLLCHeader (protocol : EtherType)
  (rest : list Z) :
  is_u16 protocol ->
  GetFrameEtherType (GenerateLLCHeader protocol ++ rest) = Ret protocol.
Proof.
  intros Hp. unfold GetFrameEtherType.
  rewrite <- (GenerateLLCHeader_size protocol), memcpy_from_head.
  cbn [bind]. unfold GenerateLLCHeader. now rewrite of_to_bytes.
Qed.

(** X3: [GetFrameEtherType] tells the generated frames apart: it returns
    SecureData for every frame of [GenerateDataPayload], and EAPoL for every
    frame of [GenerateEAPoLStartFrame] and of [GenerateEAPoLLogoffFrame]. *)
Theorem GetFrameEtherType_of_generated_frames :
  is_u16 SecureData -> is_u16 EAPoL ->
  (forall data channel dest_node src_node sequence_number,
     GetFrameEtherType
       (GenerateDataPayload data channel dest_node src_node sequence_number)
     = Ret SecureData) /\
  (forall association_id node_info,
     GetFrameEtherType (GenerateEAPoLStartFrame association_id node_info)
     = Ret EAPoL) /\
  (forall mac_address network_node_id nodes max_nodes total_nodes frame,
     GenerateEAPoLLogoffFrame mac_address network_node_id nodes max_nodes
                              total_nodes = Ret frame ->
     GetFrameEtherType frame = Ret EAPoL).
Proof.
  intros HS HE. split; [| split].
  - intros. unfold GenerateDataPayload. rewrite <- app_assoc.
    now apply GetFrameEtherType_GenerateLLCHeader.
  - intros. unfold GenerateEAPoLStartFrame.
    now apply GetFrameEtherType_GenerateLLCHeader.
  - intros mac_address network_node_id nodes max_nodes total_nodes frame.
    unfold GenerateEAPoLLogoffFrame.
    destruct (fold_left _ _ _) as [p | | |]; cbn [bind]; try discriminate.
    intros [= <-]. now apply GetFrameEtherType_GenerateLLCHeader.
Qed.


(** X5: the three parsers of EAPoL frames check no length.
    [GetEAPoLFrameType] returns the two bytes after the LLC header, read as
    a big-endian number, whatever follows them; on a frame too short for
    what they read, [GetEAPoLFrameType], [DeserializeNodeInfoFromFrame] and
    [ParseEAPoLLogoffFrame] read past the end of the buffer, and on a frame
    that is long enough they return. *)
Theorem EAPoL_parsers_check_no_length (frame : list Z) :
  (forall llc hi lo rest,
     frame = llc ++ [hi; lo] ++ rest -> size llc = sizeof_LLCHeader ->
     GetEAPoLFrameType frame = Ret (hi * 256 + lo)) /\
  (size frame < sizeof_LLCHeader + 2 ->
   GetEAPoLFrameType frame = Undefined) /\
  (size frame < sizeof_LLCHeader + sizeof_EAPoLStartPacket ->
   DeserializeNodeInfoFromFrame frame = Undefined) /\
  (size frame < sizeof_LLCHeader + sizeof_EAPoLLogoffPacket ->
   ParseEAPoLLogoffFrame frame = Undefined) /\
  (sizeof_LLCHeader + sizeof_EAPoLLogoffPacket <= size frame ->
   exists packet, ParseEAPoLLogoffFrame frame = Ret packet).
Proof.
  unfold GetEAPoLFrameType, DeserializeNodeInfoFromFrame,
    ParseEAPoLLogoffFrame.
  repeat split.
  - intros llc hi lo rest -> Hllc. rewrite <- Hllc.
    change 2 with (size [hi; lo]). rewrite memcpy_from_middle.
    cbn [bind]. unfold be_value. cbn [fold_left]. f_equal; ring.
  - intros H. now rewrite memcpy_from_short by lia.
  - intros H. now rewrite memcpy_from_short by lia.
  - intros H. now rewrite memcpy_from_short by lia.
  - intros H.
    assert (HP : 0 <= sizeof_EAPoLLogoffPacket).
    { unfold sizeof_EAPoLLogoffPacket.
      rewrite <- (to_bytes_size
                    {| EAPoLLogoffPacket.assigned_node_id := 0;
                       EAPoLLogoffPacket.connected_nodes := 0;
                       EAPoLLogoffPacket.max_nodes := 0;
                       EAPoLLogoffPacket.nodes := [] |}).
      apply size_nonneg. }
    destruct (memcpy_from_enough frame sizeof_LLCHeader
                sizeof_EAPoLLogoffPacket sizeof_LLCHeader_nonneg HP H)
      as [bytes ->].
    eexists. reflexivity.
Qed.

End GeneratedFrames.

(** ** More on the encryption pipeline *)

Lemma bytes_eqb_true (a b : list Z) : bytes_eqb a b = true -> a = b.
Proof.
  unfold bytes_eqb. destruct (list_eq_dec Z.eq_dec a b);
    [trivial | discriminate].
Qed.

Lemma app_inj_length {A : Type} (a a' b b' : list A) :
  length a = length a' -> a ++ b = a' ++ b' -> a = a' /\ b = b'.
Proof.
  revert a'; induction a as [|x a IH]; intros [|x' a'] Hlen H;
    try discriminate.
  - split; [reflexivity | exact H].
  - injection H as -> H. injection Hlen as Hlen.
    destruct (IH a' Hlen H) as [-> ->]. split; reflexivity.
Qed.

(** What the engine returns when it encrypts under a 13-byte nonce. *)
Lemma CCM_encrypt_inr (ccmp_key nonce aad payload cipher : list Z) :
  size nonce = 13 ->
  CCM_encrypt ccmp_key nonce aad payload = inr cipher ->
  size payload <= 65535 /\
  let d := {| CryptoPP.key := ccmp_key; CryptoPP.nonce := nonce;
              CryptoPP.L := 2; CryptoPP.aad_length := size aad;
              CryptoPP.message_length := size payload |} in
  cipher = CryptoPP.Crypt d payload ++ CryptoPP.Tag d aad payload.
Proof.
  intros Hn. unfold CCM_encrypt. rewrite Hn.
  destruct (CryptoPP.SetKeyWithIV _ _ _ _) as [e | d] eqn:E1;
    cbn [CryptoPP.bind]; [discriminate |].
  apply SetKeyWithIV_inr in E1 as (_ & _ & ->).
  destruct (CryptoPP.SpecifyDataLengths _ _ _) as [e | d'] eqn:E2;
    cbn [CryptoPP.bind]; [discriminate |].
  apply SpecifyDataLengths_inr in E2 as [Hmax ->].
  unfold CryptoPP.MaxMessageLength in Hmax. cbn [CryptoPP.L] in Hmax.
  change (15 - 13 <? 8) with true in Hmax.
  change (2 ^ (8 * (15 - 13)) - 1) with 65535 in Hmax. cbv iota in Hmax.
  cbn [CryptoPP.key CryptoPP.nonce CryptoPP.L]. change (15 - 13) with 2.
  unfold CryptoPP.AuthenticatedEncryptionFilter.
  destruct (CryptoPP.LengthsMatch _ _ _); [| discriminate].
  intros [= <-]. split; [exact Hmax | reflexivity].
Qed.

(** The engine, the other way round: what [CCM_decrypt] accepts is what
    [CCM_encrypt] returns for the plaintext. *)
Lemma CCM_encrypt_decrypt (ccmp_key nonce aad encrypted pdata : list Z) :
  size nonce = 13 -> size encrypted < 2 ^ 64 ->
  CCM_decrypt ccmp_key nonce aad encrypted = inr pdata ->
  CCM_encrypt ccmp_key nonce aad pdata = inr encrypted /\
  size encrypted = size pdata + 8.
Proof.
  intros Hn Hlt. unfold CCM_decrypt, CCM_encrypt. rewrite Hn.
  destruct (CryptoPP.SetKeyWithIV _ _ _ _) as [e | d] eqn:E1;
    cbn [CryptoPP.bind]; [discriminate |].
  apply SetKeyWithIV_inr in E1 as (_ & _ & ->).
  destruct (CryptoPP.SpecifyDataLengths _ _ _) as [e | d'] eqn:E2;
    cbn [CryptoPP.bind]; [discriminate |].
  pose proof E2 as E2'.
  apply SpecifyDataLengths_inr in E2' as [Hmax _].
  unfold CryptoPP.MaxMessageLength in Hmax. cbn [CryptoPP.L] in Hmax.
  change (15 - 13 <? 8) with true in Hmax.
  change (2 ^ (8 * (15 - 13)) - 1) with 65535 in Hmax. cbv iota in Hmax.
  pose proof (size_nonneg encrypted) as Hnn.
  assert (H8 : 8 <= size encrypted).
  { destruct (Z.le_gt_cases 8 (size encrypted)) as [H | H]; [exact H |].
    assert (E : size_t_sub (size encrypted) 8
                = size encrypted - 8 + 2 ^ 64)
      by (unfold size_t_sub; symmetry;
          apply Z.mod_unique with (q := -1); lia).
    lia. }
  assert (Em : size_t_sub (size encrypted) 8 = size encrypted - 8)
    by (unfold size_t_sub; apply Z.mod_small; lia).
  rewrite Em in *.
  set (k := Z.to_nat (size encrypted - 8)).
  assert (Hk : (k + 8 = length encrypted)%nat) by (unfold k, size in *; lia).
  set (cipher := firstn k encrypted).
  assert (Hc : length cipher = k)
    by (unfold cipher; rewrite length_firstn; lia).
  assert (Hmac : firstn 8 (skipn k encrypted) = skipn k encrypted)
    by (apply firstn_all2; rewrite length_skipn; lia).
  rewrite Hmac.
  unfold CryptoPP.AuthenticatedDecryptionFilter.
  destruct (CryptoPP.LengthsMatch d' aad cipher) eqn:E3; [| discriminate].
  destruct (bytes_eqb _ _) eqn:E4; [| discriminate].
  intros [= <-]. apply bytes_eqb_true in E4.
  assert (Hp : size (CryptoPP.Crypt d' cipher) = size encrypted - 8)
    by (unfold size in *; rewrite Crypt_length, Hc; lia).
  split; [| lia].
  rewrite Hp, E2. cbn [CryptoPP.bind].
  unfold CryptoPP.AuthenticatedEncryptionFilter.
  assert (E5 : CryptoPP.LengthsMatch d' aad (CryptoPP.Crypt d' cipher) = true).
  { unfold CryptoPP.LengthsMatch in *. rewrite Hp.
    replace (size encrypted - 8) with (size cipher)
      by (unfold size in *; rewrite Hc; lia).
    exact E3. }
  rewrite E5, Crypt_involutive, E4. unfold cipher.
  now rewrite firstn_skipn.
Qed.

Lemma DecryptDataFrame_Ret_aad
  (encrypted_payload ccmp_key sender receiver bssid : list Z)
  (sequence_number frame_control : Z) (r : list Z * list LogEntry) :
  DecryptDataFrame encrypted_payload ccmp_key sender receiver bssid
                   sequence_number frame_control = Ret r ->
  exists aad, GenerateCCMPAAD sender receiver bssid frame_control = Ret aad.
Proof.
  unfold DecryptDataFrame.
  destruct (GenerateCCMPAAD sender receiver bssid frame_control) as [aad | | |];
    cbn [bind]; try discriminate.
  intros _. now exists aad.
Qed.

Lemma EncryptDataFrame_Ret_aad
  (payload ccmp_key sender receiver bssid : list Z)
  (sequence_number frame_control : Z) (r : list Z * list LogEntry) :
  EncryptDataFrame payload ccmp_key sender receiver bssid
                   sequence_number frame_control = Ret r ->
  exists aad, GenerateCCMPAAD sender receiver bssid frame_control = Ret aad.
Proof.
  unfold EncryptDataFrame.
  destruct (GenerateCCMPAAD sender receiver bssid frame_control) as [aad | | |];
    cbn [bind]; try discriminate.
  intros _. now exists aad.
Qed.

(** X6: [DecryptDataFrame] accepts only what [EncryptDataFrame] produces.
    When it returns a plaintext without logging, the payload it was given is
    the very vector that [EncryptDataFrame] returns for that plaintext under
    the same key, addresses, sequence number and frame control, and is 8
    bytes longer than the plaintext. *)
Theorem DecryptDataFrame_accepts_only_EncryptDataFrame
  (encrypted_payload ccmp_key sender receiver bssid : list Z)
  (sequence_number frame_control : Z) (pdata : list Z) :
  length sender = 6%nat -> size encrypted_payload < 2 ^ 64 ->
  DecryptDataFrame encrypted_payload ccmp_key sender receiver bssid
                   sequence_number frame_control = Ret (pdata, []) ->
  EncryptDataFrame pdata ccmp_key sender receiver bssid sequence_number
                   frame_control = Ret (encrypted_payload, []) /\
  size encrypted_payload = size pdata + 8.
Proof.
  intros Hs Hlt Hdec.
  destruct (DecryptDataFrame_Ret_aad _ _ _ _ _ _ _ _ Hdec) as [aad Haad].
  rewrite (DecryptDataFrame_eq _ _ _ _ _ _ _ _ Hs Haad) in Hdec.
  destruct (CCM_decrypt _ _ _ _) as [e | p] eqn:E; [discriminate |].
  injection Hdec as ->.
  destruct (CCM_encrypt_decrypt _ _ _ _ _
              (nonce_size sender sequence_number Hs) Hlt E) as [Henc Hsize].
  split; [| exact Hsize].
  rewrite (EncryptDataFrame_eq _ _ _ _ _ _ _ _ Haad).
  change (EncryptDataFrame_nonce sender sequence_number)
    with (DecryptDataFrame_nonce sender sequence_number).
  now rewrite Henc.
Qed.

(** X7: a frame whose tag was replaced is rejected.  When the last 8
    bytes of what [EncryptDataFrame] returned are replaced by any other 8
    bytes, [DecryptDataFrame] logs "failed to decrypt" and returns an empty
    vector. *)
Theorem DecryptDataFrame_rejects_replaced_tag
  (payload ccmp_key sender receiver bssid : list Z)
  (sequence_number frame_control : Z) (cipher mac : list Z) :
  length sender = 6%nat ->
  EncryptDataFrame payload ccmp_key sender receiver bssid sequence_number
                   frame_control = Ret (cipher, []) ->
  length mac = 8%nat ->
  mac <> skipn (length payload) cipher ->
  DecryptDataFrame (firstn (length payload) cipher ++ mac) ccmp_key sender
                   receiver bssid sequence_number frame_control
  = Ret ([], [failed_to_decrypt]).
Proof.
  intros Hs Henc Hm Hne.
  destruct (EncryptDataFrame_Ret_aad _ _ _ _ _ _ _ _ Henc) as [aad Haad].
  rewrite (EncryptDataFrame_eq _ _ _ _ _ _ _ _ Haad) in Henc.
  destruct (CCM_encrypt _ _ _ _) as [e | c] eqn:E; [discriminate |].
  injection Henc as ->.
  pose proof (nonce_size sender sequence_number Hs) as Hn.
  change (EncryptDataFrame_nonce sender sequence_number)
    with (DecryptDataFrame_nonce sender sequence_number) in E.
  destruct (CCM_encrypt_inr _ _ _ _ _ Hn E) as [Hmax Hc].
  cbv zeta in Hc.
  set (d := {| CryptoPP.key := ccmp_key;
               CryptoPP.nonce := DecryptDataFrame_nonce sender sequence_number;
               CryptoPP.L := 2; CryptoPP.aad_length := size aad;
               CryptoPP.message_length := size payload |}) in *.
  assert (Hlen : length (CryptoPP.Crypt d payload) = length payload)
    by apply Crypt_length.
  rewrite Hc in Hne |- *.
  rewrite (skipn_app_exact _ _ _ Hlen) in Hne.
  rewrite (firstn_app_exact _ _ _ Hlen).
  rewrite (DecryptDataFrame_eq _ _ _ _ _ _ _ _ Hs Haad).
  assert (Hsz : size (CryptoPP.Crypt d payload) = size payload)
    by (unfold size; now rewrite Hlen).
  destruct (CCM_decrypt_tag_mismatch ccmp_key
              (DecryptDataFrame_nonce sender sequence_number) aad
              (CryptoPP.Crypt d payload) mac Hn Hm) as [e He].
  - rewrite size_app, Hsz. unfold size at 2. rewrite Hm. lia.
  - rewrite Hsz. fold d. now rewrite Crypt_involutive.
  - now rewrite He.
Qed.

Lemma testbit_masked (x y n : Z) :
  Z.testbit AADFrameControlMask n = true ->
  Z.land x AADFrameControlMask = Z.land y AADFrameControlMask ->
  Z.testbit x n = Z.testbit y n.
Proof.
  intros Hn H.
  rewrite <- (andb_true_r (Z.testbit x n)), <- (andb_true_r (Z.testbit y n)).
  rewrite <- Hn, <- !Z.land_spec. now rewrite H.
Qed.

(** X8: only the bits of the frame control that the mask 0x8FC7 keeps
    matter.  Two frame controls that agree on these bits give the same AAD,
    the same result of [EncryptDataFrame] and the same result of
    [DecryptDataFrame]. *)
Theorem masked_frame_control_bits_are_ignored
  (sender receiver bssid : list Z) (frame_control frame_control' : Z) :
  Z.land frame_control 36807 = Z.land frame_control' 36807 ->
  GenerateCCMPAAD sender receiver bssid frame_control
  = GenerateCCMPAAD sender receiver bssid frame_control' /\
  (forall data ccmp_key sequence_number,
     EncryptDataFrame data ccmp_key sender receiver bssid sequence_number
                      frame_control
     = EncryptDataFrame data ccmp_key sender receiver bssid sequence_number
                        frame_control' /\
     DecryptDataFrame data ccmp_key sender receiver bssid sequence_number
                      frame_control
     = DecryptDataFrame data ccmp_key sender receiver bssid sequence_number
                        frame_control').
Proof.
  intros H.
  assert (E : GenerateCCMPAAD sender receiver bssid frame_control
              = GenerateCCMPAAD sender receiver bssid frame_control').
  { rewrite !GenerateCCMPAAD_eq. unfold to_DS, from_DS.
    rewrite (testbit_masked frame_control frame_control' 0 eq_refl H).
    rewrite (testbit_masked frame_control frame_control' 1 eq_refl H).
    change AADFrameControlMask with 36807. now rewrite H. }
  split; [exact E |].
  intros data ccmp_key sequence_number.
  unfold EncryptDataFrame, DecryptDataFrame. now rewrite E.
Qed.

(** X9: the nonce determines the sender and the sequence number: two
    6-byte senders and two 16-bit sequence numbers that give the same nonce
    are the same. *)
Theorem CCM_nonce_injective (sender sender' : list Z)
  (sequence_number sequence_number' : Z) :
  length sender = 6%nat -> length sender' = 6%nat ->
  is_u16 sequence_number -> is_u16 sequence_number' ->
  EncryptDataFrame_nonce sender sequence_number
  = EncryptDataFrame_nonce sender' sequence_number' ->
  sender = sender' /\ sequence_number = sequence_number'.
Proof.
  intros Hs Hs' Hq Hq'. unfold EncryptDataFrame_nonce.
  intros H. cbn [app] in H. injection H as H.
  apply app_inj_length in H as [-> H]; [| congruence].
  split; [reflexivity |].
  injection H as H1 H0.
  change 255 with (Z.ones 8) in *.
  rewrite !Z.land_ones, !Z.shiftr_div_pow2 in * by lia.
  unfold is_u16 in *.
  rewrite (Z.div_mod sequence_number (2 ^ 8)) by lia.
  rewrite (Z.div_mod sequence_number' (2 ^ 8)) by lia.
  rewrite (Z.mod_small (sequence_number / 2 ^ 8) (2 ^ 8)) in H1
    by (split; [apply Z.div_pos; lia | apply Z.div_lt_upper_bound; lia]).
  rewrite (Z.mod_small (sequence_number' / 2 ^ 8) (2 ^ 8)) in H1
    by (split; [apply Z.div_pos; lia | apply Z.div_lt_upper_bound; lia]).
  now rewrite H1, H0.
Qed.

(** X10: the vector that [EncryptDataFrame] returns is empty exactly when
    the function has logged a failure; otherwise nothing is logged and the
    vector is 8 bytes longer than the payload. *)
Theorem EncryptDataFrame_result
  (payload ccmp_key sender receiver bssid : list Z)
  (sequence_number frame_control : Z) (cipher : list Z)
  (log : list LogEntry) :
  EncryptDataFrame payload ccmp_key sender receiver bssid sequence_number
                   frame_control = Ret (cipher, log) ->
  ((log = [] /\ size cipher = size payload + 8) \/
   (log = [failed_to_encrypt] /\ cipher = [])) /\
  (cipher = [] <-> log <> []).
Proof.
  intros Henc.
  destruct (EncryptDataFrame_Ret_aad _ _ _ _ _ _ _ _ Henc) as [aad Haad].
  rewrite (EncryptDataFrame_eq _ _ _ _ _ _ _ _ Haad) in Henc.
  destruct (CCM_encrypt _ _ _ _) as [e | c] eqn:E.
  - injection Henc as <- <-. split; [right; split; reflexivity |].
    split; [discriminate | reflexivity].
  - injection Henc as <- <-.
    destruct (CCM_decrypt_encrypt _ _ _ _ _ E) as [Hsize _].
    pose proof (size_nonneg payload) as Hn.
    split; [left; split; [reflexivity | exact Hsize] |].
    split; [| congruence].
    intros ->. unfold size in Hsize at 1. cbn in Hsize. lia.
Qed.

(** X12: the AAD fixes the three addresses and the masked frame control.
    Two calls of [GenerateCCMPAAD] on 6-byte addresses that return the same
    AAD were given the same sender, receiver and bssid, and frame controls
    that agree on the bits of the mask 0x8FC7. *)
Theorem GenerateCCMPAAD_injective
  (sender receiver bssid sender' receiver' bssid' : list Z)
  (frame_control frame_control' : Z) (aad : list Z) :
  length sender = 6%nat -> length receiver = 6%nat ->
  length bssid = 6%nat ->
  length sender' = 6%nat -> length receiver' = 6%nat ->
  length bssid' = 6%nat ->
  GenerateCCMPAAD sender receiver bssid frame_control = Ret aad ->
  GenerateCCMPAAD sender' receiver' bssid' frame_control' = Ret aad ->
  Z.land frame_control 36807 = Z.land frame_control' 36807 /\
  sender = sender' /\ receiver = receiver' /\ bssid = bssid'.
Proof.
  intros Hs Hr Hb Hs' Hr' Hb' H H'.
  rewrite GenerateCCMPAAD_eq in H, H'.
  destruct (Bool.eqb (to_DS frame_control) (from_DS frame_control));
    [discriminate |].
  destruct (Bool.eqb (to_DS frame_control') (from_DS frame_control'));
    [discriminate |].
  assert (Hfc : forall l l',
            be_bytes 2 (Z.land frame_control AADFrameControlMask) ++ l
            = be_bytes 2 (Z.land frame_control' AADFrameControlMask) ++ l' ->
            Z.land frame_control 36807 = Z.land frame_control' 36807 /\
            l = l').
  { intros l l' E.
    apply app_inj_length in E as [E ->];
      [| now rewrite !be_bytes_length].
    split; [| reflexivity].
    apply (f_equal be_value) in E.
    now rewrite !be_value_be_bytes in E by apply land_mask_u16. }
  assert (Hbit : Z.land frame_control 36807 = Z.land frame_control' 36807 ->
                 from_DS frame_control = from_DS frame_control')
    by (intros E; unfold from_DS;
        exact (testbit_masked frame_control frame_control' 1 eq_refl E)).
  destruct (from_DS frame_control), (from_DS frame_control');
    match type of H with
    | Ret ?A = _ =>
        match type of H' with
        | Ret ?B = _ => assert (H0 : A = B) by congruence
        end
    end;
    clear H H'; apply Hfc in H0 as [E H'];
    try (specialize (Hbit E); discriminate);
    (split; [exact E |]);
    apply app_inj_length in H' as [-> H']; try congruence;
    apply app_inj_length in H' as [-> H']; try congruence;
    apply app_inj_length in H' as [-> _]; try congruence;
    repeat split.
Qed.

Section KeyDerivationInverse.

Context {CTR_members : DataFrameCryptoCTR_members}.
Context {Keys : KeyStorage}.

(** X11: the key derivation can be undone by whoever holds the normal
    key: AES-CTR under the same key and counter block turns the CCMP key
    back into the MD5 digest of the passphrase; so, on one network, two
    passphrases give the same key exactly when their digests are equal. *)
Theorem GenerateDataCCMPKey_inverse (passphrase : list Z)
  (network_info : NetworkInfo.t) :
  CryptoPP.CTR_ProcessData (GetNormalKey UDSDataKey)
    (GetDataCryptoCTR network_info) 0
    (GenerateDataCCMPKey passphrase network_info)
  = MD5.CalculateDigest passphrase /\
  (forall passphrase',
     GenerateDataCCMPKey passphrase network_info
     = GenerateDataCCMPKey passphrase' network_info
     <-> MD5.CalculateDigest passphrase = MD5.CalculateDigest passphrase').
Proof.
  split.
  - unfold GenerateDataCCMPKey. apply CTR_ProcessData_involutive.
  - intros passphrase'. unfold GenerateDataCCMPKey. split.
    + intros H.
      apply (f_equal (CryptoPP.CTR_ProcessData (GetNormalKey UDSDataKey)
                        (GetDataCryptoCTR network_info) 0)) in H.
      now rewrite !CTR_ProcessData_involutive in H.
    + now intros ->.
Qed.

End KeyDerivationInverse.

(** ** The further properties on sample frames *)

Section MoreSampleFrames.

#[local] Existing Instance SampleLayout.EtherTypes.
#[local] Existing Instance SampleLayout.LLCHeader_rep.
#[local] Existing Instance SampleLayout.SecureDataHeader_rep.
#[local] Existing Instance SampleLayout.Usernames.
#[local] Existing Instance SampleLayout.EAPoLStartPacket_rep.
#[local] Existing Instance SampleLogoff.Nodes.
#[local] Existing Instance SampleLogoff.EAPoLLogoffPacket_rep.

Import SampleLayout.
Import SampleLogoff.

Lemma node_list_wf : Forall NodeInfo_wf (firstn (Z.to_nat 2) node_list).
Proof.
  repeat constructor; cbn; unfold is_u64, is_u16; try lia;
    repeat constructor; lia.
Qed.

(** A Logoff frame for two nodes. *)
Lemma ParseEAPoLLogoffFrame_GenerateEAPoLLogoffFrame_sample :
  exists frame packet,
    GenerateEAPoLLogoffFrame bssid 1 node_list 2 2 = Ret frame /\
    ParseEAPoLLogoffFrame frame = Ret packet /\
    map DeserializeNodeInfo (firstn 2 (EAPoLLogoffPacket.nodes packet))
    = node_list.
Proof.
  assert (H16 : is_u16 1) by (unfold is_u16; lia).
  assert (H8 : is_u8 2) by (unfold is_u8; lia).
  destruct (ParseEAPoLLogoffFrame_GenerateEAPoLLogoffFrame
              bssid 1 node_list 2 2 H16 H8 H8)
    as (frame & packet & Hg & Hp & _ & _ & _ & Hn & _).
  - cbn. lia.
  - cbn. lia.
  - exact node_list_wf.
  - exists frame, packet. repeat split; assumption.
Defined.

(** [max_nodes] = 3 with a list of two nodes. *)
Lemma GenerateEAPoLLogoffFrame_bounds_sample :
  GenerateEAPoLLogoffFrame bssid 1 node_list 3 2 = Undefined.
Proof.
  apply (GenerateEAPoLLogoffFrame_bounds bssid 1 node_list 3 2).
  left. cbn. lia.
Defined.

Lemma GetFrameEtherType_of_generated_frames_sample :
  GetFrameEtherType (GenerateDataPayload [1; 2; 3] 1 2 3 5) = Ret SecureData
  /\ GetFrameEtherType (GenerateEAPoLStartFrame 1 node_info) = Ret EAPoL.
Proof.
  assert (HS : is_u16 SecureData) by (unfold is_u16; cbn; lia).
  assert (HE : is_u16 EAPoL) by (unfold is_u16; cbn; lia).
  destruct (GetFrameEtherType_of_generated_frames HS HE) as (H1 & H2 & _).
  split; [apply H1 | apply H2].
Defined.


(** A frame that holds an LLC header and the two bytes 02 01. *)
Lemma EAPoL_parsers_check_no_length_sample :
  GetEAPoLFrameType [170; 170; 3; 0; 0; 0; 136; 142; 2; 1] = Ret 513 /\
  ParseEAPoLLogoffFrame [170; 170; 3; 0; 0; 0; 136; 142; 2; 1] = Undefined.
Proof.
  destruct (EAPoL_parsers_check_no_length
              [170; 170; 3; 0; 0; 0; 136; 142; 2; 1])
    as (H1 & _ & _ & H4 & _).
  split.
  - exact (H1 [170; 170; 3; 0; 0; 0; 136; 142] 2 1 [] eq_refl eq_refl).
  - apply H4. reflexivity.
Defined.

(** The frame of the sample, decrypted. *)
Lemma DecryptDataFrame_accepts_only_EncryptDataFrame_sample :
  EncryptDataFrame [99; 105; 116; 114; 97] ccmp_key sender receiver bssid
                   5 2
  = Ret ([108; 152; 84; 248; 86; 163; 171; 156; 252; 143; 66; 123; 145], []).
Proof.
  apply (DecryptDataFrame_accepts_only_EncryptDataFrame
           [108; 152; 84; 248; 86; 163; 171; 156; 252; 143; 66; 123; 145]
           ccmp_key sender receiver bssid 5 2 [99; 105; 116; 114; 97]);
    [reflexivity | reflexivity | vm_compute; reflexivity].
Defined.

(** The frame of the sample with a tag of zeros. *)
Lemma DecryptDataFrame_rejects_replaced_tag_sample :
  DecryptDataFrame [108; 152; 84; 248; 86; 0; 0; 0; 0; 0; 0; 0; 0] ccmp_key
                   sender receiver bssid 5 2
  = Ret ([], [failed_to_decrypt]).
Proof.
  refine (DecryptDataFrame_rejects_replaced_tag
            [99; 105; 116; 114; 97] ccmp_key sender receiver bssid 5 2
            [108; 152; 84; 248; 86; 163; 171; 156; 252; 143; 66; 123; 145]
            [0; 0; 0; 0; 0; 0; 0; 0] eq_refl _ eq_refl _).
  - vm_compute. reflexivity.
  - cbn. discriminate.
Defined.

(** Frame controls 0x0002 and 0x003A differ in bits 3, 4 and 5 only. *)
Lemma masked_frame_control_bits_are_ignored_sample :
  GenerateCCMPAAD sender receiver bssid 2
  = GenerateCCMPAAD sender receiver bssid 58.
Proof.
  apply (masked_frame_control_bits_are_ignored sender receiver bssid 2 58).
  reflexivity.
Defined.

(** Two sequence numbers, one sender. *)
Lemma CCM_nonce_injective_sample :
  length sender = 6%nat /\
  EncryptDataFrame_nonce sender 5 <> EncryptDataFrame_nonce sender 6.
Proof.
  split; [reflexivity |]. intros H.
  assert (H5 : is_u16 5) by (unfold is_u16; lia).
  assert (H6 : is_u16 6) by (unfold is_u16; lia).
  destruct (CCM_nonce_injective sender sender 5 6 eq_refl eq_refl H5 H6 H)
    as [_ E].
  discriminate E.
Defined.

(** The frame of the sample is 8 bytes longer than its payload. *)
Lemma EncryptDataFrame_result_sample :
  size [108; 152; 84; 248; 86; 163; 171; 156; 252; 143; 66; 123; 145]
  = size [99; 105; 116; 114; 97] + 8.
Proof.
  assert (H : EncryptDataFrame [99; 105; 116; 114; 97] ccmp_key sender
                receiver bssid 5 2
              = Ret ([108; 152; 84; 248; 86; 163; 171; 156; 252; 143; 66;
                      123; 145], []))
    by (vm_compute; reflexivity).
  destruct (proj1 (EncryptDataFrame_result _ _ _ _ _ _ _ _ _ H))
    as [[_ Hsize] | [Hlog _]]; [exact Hsize | discriminate Hlog].
Defined.

Lemma GenerateCCMPAAD_injective_sample :
  Z.land 2 36807 = Z.land 58 36807 /\
  sender = sender /\ receiver = receiver /\ bssid = bssid.
Proof.
  refine (GenerateCCMPAAD_injective sender receiver bssid sender receiver
            bssid 2 58
            [0; 2; 2; 0; 0; 0; 0; 2; 2; 0; 0; 0; 0; 3; 2; 0; 0; 0; 0; 1; 0; 0]
            eq_refl eq_refl eq_refl eq_refl eq_refl eq_refl _ _);
    vm_compute; reflexivity.
Defined.

End MoreSampleFrames.
